(** * catalog-service: the version read model and the process bootstrap

    A shallow embedding of [model/version.go] (the two version lookups and
    the SQL they send) and of the [cmd] package (flag binding, [readConfig],
    [run], [formatDSN] and the [refresh] goroutine), followed by the
    properties of the catalog specification that these two files decide
    and by further properties of the same code. *)

From Stdlib Require Import ZArith NArith Ascii String List Bool Lia.
From stdpp Require Import base option strings gmap.
Import ListNotations.

Local Open Scope string_scope.
Local Open Scope Z_scope.

(** ** Package [model] *)

Module model.

Section Types.
(** [Base], [File] and [Question] are declared in other files of the
    package; the lookups never look inside them. *)
Context {Base File Question : Type}.

(** [type Version struct]. [TemplateId] is a [uint], [Revision] an [int];
    the embedded field of the same name as the struct is [Version']. *)
Record Version := {
  EnvironmentId : string;
  TemplateId : N;
  Revision : Z;
  Version' : string;
  MinimumRancherVersion : string;
  MaximumRancherVersion : string;
  UpgradeFrom : string;
  Files : list File;
  Questions : list Question;
  Readme : string
}.

(** [type VersionModel struct { Base; Version }] *)
Record VersionModel := {
  VersionModel_Base : Base;
  VersionModel_Version : Version
}.

(** The zero value of [VersionModel], what [var versionModel VersionModel]
    holds before anything is scanned into it. *)
Definition zero_Version : Version :=
  {| EnvironmentId := EmptyString; TemplateId := 0%N; Revision := 0;
     Version' := EmptyString;
     MinimumRancherVersion := EmptyString;
     MaximumRancherVersion := EmptyString;
     UpgradeFrom := EmptyString; Files := []; Questions := [];
     Readme := EmptyString |}.

Definition zero_VersionModel (zero_Base : Base) : VersionModel :=
  {| VersionModel_Base := zero_Base; VersionModel_Version := zero_Version |}.

(** *** The three tables the queries read

    A row of [catalog_version] carries the columns of [VersionModel]:
    those of [Base] and the scalar fields of [Version]. [Files] and
    [Questions] are slices of structs, which are not columns. Of
    [catalog] and [catalog_template] the queries mention [id], [name],
    [catalog_id] and [folder_name] only. *)
Record catalog_version_row := {
  v_base : Base;
  v_environment_id : string;
  v_template_id : N;
  v_revision : Z;
  v_version : string;
  v_minimum_rancher_version : string;
  v_maximum_rancher_version : string;
  v_upgrade_from : string;
  v_readme : string
}.

Record catalog_template_row := {
  t_id : N;
  t_catalog_id : N;
  t_folder_name : string
}.

Record catalog_row := {
  c_id : N;
  c_name : string
}.

Record DB := {
  tbl_catalog_version : list catalog_version_row;
  tbl_catalog_template : list catalog_template_row;
  tbl_catalog : list catalog_row
}.

Definition joined : Type :=
  (catalog_version_row * catalog_template_row * catalog_row)%type.

(** [FROM catalog_version, catalog_template, catalog]: the product of the
    three tables. *)
Definition from_tables (db : DB) : list joined :=
  flat_map (fun v =>
    flat_map (fun t =>
      List.map (fun c => (v, t, c)) (tbl_catalog db))
      (tbl_catalog_template db))
    (tbl_catalog_version db).

(** The conditions shared by the two queries, in the order of the text:
<<
WHERE (catalog_version.environment_id = ? OR catalog_version.environment_id = ?)
AND catalog_version.template_id = catalog_template.id
AND catalog_template.catalog_id = catalog.id
AND catalog.name = ?
AND catalog_template.folder_name = ?
>>
    with the placeholders bound to [environmentId], ["global"], [catalog]
    and [template]. Strings are compared byte for byte. *)
Definition where_template (environmentId catalog template : string)
    (r : joined) : bool :=
  let '(v, t, c) := r in
  (String.eqb (v_environment_id v) environmentId
     || String.eqb (v_environment_id v) "global")
  && N.eqb (v_template_id v) (t_id t)
  && N.eqb (t_catalog_id t) (c_id c)
  && String.eqb (c_name c) catalog
  && String.eqb (t_folder_name t) template.

(** The query of [LookupVersions]: [SELECT catalog_version.*] of the rows
    that pass [where_template]. *)
Definition select_versions (db : DB) (environmentId catalog template : string)
    : list catalog_version_row :=
  List.map (fun r : joined => fst (fst r))
    (List.filter (where_template environmentId catalog template)
       (from_tables db)).

(** The query of [LookupVersionModel]: the same, with the further
    condition [AND catalog_version.revision = ?]. *)
Definition where_revision (environmentId catalog template : string)
    (revision : Z) (r : joined) : bool :=
  where_template environmentId catalog template r
  && Z.eqb (v_revision (fst (fst r))) revision.

Definition select_version (db : DB) (environmentId catalog template : string)
    (revision : Z) : list catalog_version_row :=
  List.map (fun r : joined => fst (fst r))
    (List.filter (where_revision environmentId catalog template revision)
       (from_tables db)).

(** *** gorm's [Scan]

    Scanning one row into a [VersionModel] overwrites the fields that are
    columns and leaves [Files] and [Questions] as they were. *)
Definition scan_row (dest : VersionModel) (r : catalog_version_row)
    : VersionModel :=
  {| VersionModel_Base := v_base r;
     VersionModel_Version :=
       {| EnvironmentId := v_environment_id r;
          TemplateId := v_template_id r;
          Revision := v_revision r;
          Version' := v_version r;
          MinimumRancherVersion := v_minimum_rancher_version r;
          MaximumRancherVersion := v_maximum_rancher_version r;
          UpgradeFrom := v_upgrade_from r;
          Files := Files (VersionModel_Version dest);
          Questions := Questions (VersionModel_Version dest);
          Readme := v_readme r |} |}.

Inductive gorm_error := ErrRecordNotFound.

(** [Scan(&versionModel)], a struct destination: every fetched row is
    scanned into the one destination in turn; when there was no row the
    destination is untouched and the handle that [Scan] returns carries
    [ErrRecordNotFound]. *)
Definition Scan_struct (rows : list catalog_version_row)
    (dest : VersionModel) : VersionModel * option gorm_error :=
  (fold_left scan_row rows dest,
   match rows with [] => Some ErrRecordNotFound | _ :: _ => None end).

(** [Scan(&versionModels)], a slice destination: one fresh element per
    row, appended in order; no row is not an error. *)
Definition Scan_slice (zero_Base : Base) (rows : list catalog_version_row)
    : list VersionModel * option gorm_error :=
  (List.map (scan_row (zero_VersionModel zero_Base)) rows, None).

(** *** The two lookups

    [LookupVersionModel] returns [&versionModel]; a [*VersionModel] is an
    [option], [None] being the nil pointer. The handle returned by [Scan],
    and the error on it, is dropped. *)
Definition LookupVersionModel_scan (zero_Base : Base) (db : DB)
    (environmentId catalog template : string) (revision : Z)
    : VersionModel * option gorm_error :=
  Scan_struct (select_version db environmentId catalog template revision)
    (zero_VersionModel zero_Base).

Definition LookupVersionModel (zero_Base : Base) (db : DB)
    (environmentId catalog template : string) (revision : Z)
    : option VersionModel :=
  Some (fst (LookupVersionModel_scan zero_Base db environmentId catalog
               template revision)).

Definition LookupVersions_scan (zero_Base : Base) (db : DB)
    (environmentId catalog template : string)
    : list VersionModel * option gorm_error :=
  Scan_slice zero_Base (select_versions db environmentId catalog template).

Definition LookupVersions (zero_Base : Base) (db : DB)
    (environmentId catalog template : string) : list Version :=
  fold_left (fun versions versionModel =>
               (versions ++ [VersionModel_Version versionModel])%list)
    (fst (LookupVersions_scan zero_Base db environmentId catalog template))
    [].

(** *** Vocabulary of the specification *)

(** The Version that a persisted row stands for. *)
Definition version_of_row (r : catalog_version_row) : Version :=
  VersionModel_Version (scan_row (zero_VersionModel (v_base r)) r).

(** A catalog name and a template name resolve when the catalog has a
    template of that folder name. *)
Definition resolves (db : DB) (catalog template : string) : bool :=
  existsb (fun c =>
    String.eqb (c_name c) catalog
    && existsb (fun t =>
         N.eqb (t_catalog_id t) (c_id c)
         && String.eqb (t_folder_name t) template)
         (tbl_catalog_template db))
    (tbl_catalog db).

(** The persisted row [v] belongs to the template [template] of the
    catalog [catalog]. *)
Definition of_template (db : DB) (catalog template : string)
    (v : catalog_version_row) : Prop :=
  exists t c,
    In t (tbl_catalog_template db) /\ In c (tbl_catalog db) /\
    v_template_id v = t_id t /\ t_catalog_id t = c_id c /\
    c_name c = catalog /\ t_folder_name t = template.

(** A row is visible to an environment when it is scoped to it or to
    ["global"]. *)
Definition visible (environmentId : string) (v : catalog_version_row)
    : Prop :=
  v_environment_id v = environmentId \/ v_environment_id v = "global".

End Types.

(** A column, or a tuple of columns, under a unique index: no two rows of
    the table agree on it. *)
Definition unique_key {Row Key : Type} (key : Row -> Key)
    (table : list Row) : Prop :=
  List.NoDup (List.map key table).

Arguments Version : clear implicits.
Arguments VersionModel : clear implicits.
Arguments catalog_version_row : clear implicits.
Arguments DB : clear implicits.
Arguments joined : clear implicits.

End model.

(** ** Package [time] of the Go library, as far as [refresh] uses it *)

Module time.

(** A [Duration] is an [int64] of nanoseconds; its arithmetic wraps. *)
Definition wrap64 (z : Z) : Z := (z + 2 ^ 63) mod 2 ^ 64 - 2 ^ 63.

Definition Second : Z := 1000000000.

(** [time.Duration(n) * time.Second] *)
Definition seconds (n : Z) : Z := wrap64 (wrap64 n * Second).

(** A receive-only channel of ticks: [None] is the nil channel, on which
    a receive blocks for ever; [Some d] delivers a value every [d]
    nanoseconds. *)
Definition channel : Type := option Z.

(** [time.Tick(d)]: the channel of a new ticker, and nil when [d <= 0]. *)
Definition Tick (d : Z) : channel := if d <=? 0 then None else Some d.

End time.

(** ** Package [cmd] *)

Module cmd.

(** A Go [error] value that is not nil. *)
Definition error : Type := string.

(** *** The package variables and the flags bound to them *)

Record Globals := {
  refreshInterval : Z;
  port : Z;
  cacheRoot : string;
  configFile : string;
  validateOnly : bool;
  sqlite : bool;
  migrateDb : bool
}.

(** The state of the [var ( ... )] block: every variable at its zero
    value. *)
Definition zero_Globals : Globals :=
  {| refreshInterval := 0; port := 0; cacheRoot := EmptyString;
     configFile := EmptyString;
     validateOnly := false; sqlite := false; migrateDb := false |}.

(** [init]: [IntVarP], [StringVar] and [BoolVar] store the default of the
    flag through the pointer they are given. [Int] for ["refresh-interval"]
    (default 60) and [String] for the ["mysql-..."] flags allocate their own storage
    and are bound to viper keys; no package variable is involved. *)
Definition init (g : Globals) : Globals :=
  {| refreshInterval := refreshInterval g;
     port := 8088;
     cacheRoot := "./cache";
     configFile := "./repo.json";
     validateOnly := false;
     sqlite := false;
     migrateDb := false |}.

Inductive flag_value :=
| IntValue (n : Z)
| StringValue (s : string)
| BoolValue (b : bool).

(** What one flag of the command line, already converted to the type it
    was registered with, writes into the package variables. *)
Definition set_flag (g : Globals) (f : string * flag_value) : Globals :=
  match f with
  | (name, IntValue n) =>
      if String.eqb name "port" || String.eqb name "p" then
        {| refreshInterval := refreshInterval g; port := n;
           cacheRoot := cacheRoot g; configFile := configFile g;
           validateOnly := validateOnly g; sqlite := sqlite g;
           migrateDb := migrateDb g |}
      else g
  | (name, StringValue s) =>
      if String.eqb name "cache" then
        {| refreshInterval := refreshInterval g; port := port g;
           cacheRoot := s; configFile := configFile g;
           validateOnly := validateOnly g; sqlite := sqlite g;
           migrateDb := migrateDb g |}
      else if String.eqb name "config" then
        {| refreshInterval := refreshInterval g; port := port g;
           cacheRoot := cacheRoot g; configFile := s;
           validateOnly := validateOnly g; sqlite := sqlite g;
           migrateDb := migrateDb g |}
      else g
  | (name, BoolValue b) =>
      if String.eqb name "validate" then
        {| refreshInterval := refreshInterval g; port := port g;
           cacheRoot := cacheRoot g; configFile := configFile g;
           validateOnly := b; sqlite := sqlite g;
           migrateDb := migrateDb g |}
      else if String.eqb name "sqlite" then
        {| refreshInterval := refreshInterval g; port := port g;
           cacheRoot := cacheRoot g; configFile := configFile g;
           validateOnly := validateOnly g; sqlite := b;
           migrateDb := migrateDb g |}
      else if String.eqb name "migrate-db" then
        {| refreshInterval := refreshInterval g; port := port g;
           cacheRoot := cacheRoot g; configFile := configFile g;
           validateOnly := validateOnly g; sqlite := sqlite g;
           migrateDb := b |}
      else g
  end.

(** The package variables when [run] is entered, for a command line. *)
Definition parse_flags (args : list (string * flag_value)) : Globals :=
  fold_left set_flag args (init zero_Globals).

(** *** [readConfig] and [run] *)

(** A Go map value with string keys is nil or a table. *)
Abbreviation gomap V := (option (gmap string V)).

Section Run.
(** [manager.CatalogConfig] is declared in package [manager]. *)
Context {CatalogConfig : Type}.

(** [m[k]]: the zero value of [V] when [m] is nil or has no [k]. *)
Definition index {V : Type} (zero : V) (m : gomap V) (k : string) : V :=
  match m with
  | None => zero
  | Some table => default zero (table !! k)
  end.

(** What [run] calls outside the repository: the file system, the JSON
    decoder into a [map[string]map[string]manager.CatalogConfig], and
    [gorm.Open], of which only the error matters here. [mysql_dsn] is
    the string [formatDSN] builds from viper's [mysql_*] settings. *)
Record Env := {
  ioutil_ReadFile : string -> error + string;
  json_Unmarshal : string -> error + gomap (gomap CatalogConfig);
  gorm_Open : string -> string -> option error;
  mysql_dsn : string
}.

(** [readConfig] returns the pair [(catalogs, err)] of Go. *)
Definition readConfig (env : Env) (configFile : string)
    : gomap CatalogConfig * option error :=
  match ioutil_ReadFile env configFile with
  | inl err => (None, Some err)
  | inr configContents =>
      match json_Unmarshal env configContents with
      | inl err => (None, Some err)
      | inr config => (index None config "catalogs", None)
      end
  end.

(** Where the main goroutine of [run] ends up. [log.Fatal] ends the
    process with status 1. Otherwise the manager is built from [config],
    [refresh] is started as a goroutine with the package variables
    [refreshInterval] and [validateOnly], and the main goroutine either
    blocks in [select {}] ([started_serve = None]) or calls
    [http.ListenAndServe] on the port. *)
Record started := {
  started_config : gomap CatalogConfig;
  started_dialect : string;
  started_migrate : bool;
  started_refreshInterval : Z;
  started_validateOnly : bool;
  started_serve : option Z
}.

Inductive run_outcome :=
| log_Fatal (err : error)
| running (s : started).

(** [run] from the opening of the database on. *)
Definition run_with_config (env : Env) (g : Globals)
    (config : gomap CatalogConfig) : run_outcome :=
  let dialect := if sqlite g then "sqlite3" else "mysql" in
  let dsn := if sqlite g then "local.db" else mysql_dsn env in
  match gorm_Open env dialect dsn with
  | Some err => log_Fatal err
  | None =>
      running
        {| started_config := config;
           started_dialect := dialect;
           started_migrate := if sqlite g then true else migrateDb g;
           started_refreshInterval := refreshInterval g;
           started_validateOnly := validateOnly g;
           started_serve := if validateOnly g then None else Some (port g) |}
  end.

Definition run (env : Env) (g : Globals) : run_outcome :=
  match readConfig env (configFile g) with
  | (_, Some err) => log_Fatal err
  | (config, None) => run_with_config env g config
  end.

End Run.

Arguments Env : clear implicits.
Arguments started : clear implicits.
Arguments run_outcome : clear implicits.

(** *** [refresh] *)

(** The two methods of [*manager.Manager] that [refresh] calls. The
    manager is in package [manager]; a call may change its state and
    returns an error or nil. *)
Class Manager (M : Type) := {
  CreateConfigCatalogs : M -> M * option error;
  RefreshAll : M -> M * option error
}.

(** How the part of [refresh] before the loop ends: [log.Fatalf]
    (status 1), [os.Exit], or the [for range] over the ticker channel. *)
Inductive refresh_outcome (M : Type) :=
| log_Fatalf (format : string) (err : error)
| os_Exit (code : Z)
| ranging (m : M) (ch : time.channel).
Arguments log_Fatalf {M}.
Arguments os_Exit {M}.
Arguments ranging {M}.

Definition refresh {M : Type} `{Manager M} (m : M) (refreshInterval : Z)
    (validateOnly : bool) : refresh_outcome M :=
  match CreateConfigCatalogs m with
  | (_, Some err) =>
      log_Fatalf "Failed to create catalogs from config file: %v" err
  | (m1, None) =>
      match RefreshAll m1 with
      | (_, Some err) =>
          log_Fatalf "Failed to do initial refresh of catalogs: %v" err
      | (m2, None) =>
          if validateOnly then os_Exit 0
          else ranging m2 (time.Tick (time.seconds refreshInterval))
      end
  end.

(** The loop, as an interleaving of what can happen to it: a value
    arrives on the channel and the body runs, or one of the goroutines
    the body started returns. The goroutines are numbered in the order
    they were started. *)
Record goroutines := {
  started_so_far : nat;
  in_flight : list nat
}.

Definition no_goroutines : goroutines :=
  {| started_so_far := 0; in_flight := [] |}.

(** The body, [go m.RefreshAll()], is not guarded by anything. *)
Definition loop_body (p : goroutines) : goroutines :=
  {| started_so_far := S (started_so_far p);
     in_flight := started_so_far p :: in_flight p |}.

Inductive happening :=
| tick
| returns (g : nat).

Definition loop_step (ch : time.channel) (p : goroutines) (h : happening)
    : option goroutines :=
  match h with
  | tick =>
      match ch with
      | None => None
      | Some _ => Some (loop_body p)
      end
  | returns g =>
      if existsb (Nat.eqb g) (in_flight p) then
        Some {| started_so_far := started_so_far p;
                in_flight := List.filter (fun g' => negb (Nat.eqb g g'))
                               (in_flight p) |}
      else None
  end.

Fixpoint loop_run (ch : time.channel) (hs : list happening) (p : goroutines)
    : option goroutines :=
  match hs with
  | [] => Some p
  | h :: hs' =>
      match loop_step ch p h with
      | None => None
      | Some p' => loop_run ch hs' p'
      end
  end.

End cmd.

(** ** Package [strings] of the Go library, as far as [run] and
    [formatDSN] use it *)

Module gostrings.

(** [strings.HasSuffix(s, suffix)]:
    [len(s) >= len(suffix) && s[len(s)-len(suffix):] == suffix]. *)
Definition HasSuffix (s suffix : string) : bool :=
  (String.length suffix <=? String.length s)%nat
  && String.eqb
       (String.substring (String.length s - String.length suffix)
          (String.length suffix) s)
       suffix.

(** [strings.TrimSuffix(s, suffix)]: [s[:len(s)-len(suffix)]] when [s] has
    the suffix, and [s] otherwise. *)
Definition TrimSuffix (s suffix : string) : string :=
  if HasSuffix s suffix
  then String.substring 0 (String.length s - String.length suffix) s
  else s.

(** [strings.Split(s, sep)] for a separator of one byte: the pieces between
    the separators, all of them; a string without separator is the one
    piece, also when it is empty. *)
Fixpoint Split (s : string) (sep : Ascii.ascii) : list string :=
  match s with
  | EmptyString => [EmptyString]
  | String c s' =>
      if Ascii.eqb c sep then EmptyString :: Split s' sep
      else match Split s' sep with
           | [] => [String c EmptyString]
           | piece :: pieces => String c piece :: pieces
           end
  end.

(** [strings.SplitN(s, sep, 2)] for a separator of one byte: [s] is cut at
    the first separator only; without separator the result is [[s]]. *)
Fixpoint SplitN2 (s : string) (sep : Ascii.ascii) : list string :=
  match s with
  | EmptyString => [EmptyString]
  | String c s' =>
      if Ascii.eqb c sep then [EmptyString; s']
      else match SplitN2 s' sep with
           | piece :: rest => String c piece :: rest
           | [] => [String c EmptyString]
           end
  end.

End gostrings.

(** ** Package [cmd], continued: the table names and the DSN *)

Module cmdaux.

(** The function that [run] stores in [gorm.DefaultTableNameHandler]; the
    handle argument is not used. *)
Definition DefaultTableNameHandler (defaultTableName : string) : string :=
  let defaultTableName := gostrings.TrimSuffix defaultTableName "_model" in
  if String.eqb defaultTableName "catalog" then defaultTableName
  else "catalog_" ++ defaultTableName.

(** [mysql.Config], the fields that [formatDSN] sets. *)
Record mysql_Config := {
  User : string;
  Passwd : string;
  Addr : string;
  DBName : string;
  Params : gmap string string
}.

(** One turn of the loop of [formatDSN] over the pieces of [params]. *)
Definition add_param (paramsMap : gmap string string) (param : string)
    : gmap string string :=
  match gostrings.SplitN2 param "="%char with
  | key :: value :: _ => <[key := value]> paramsMap
  | _ => paramsMap
  end.

(** [paramsMap] when the loop of [formatDSN] is over. *)
Definition paramsMap (params : string) : gmap string string :=
  fold_left add_param (gostrings.Split params "&"%char)
    {[ "parseTime" := "true" ]}.

(** The [mysql.Config] that [formatDSN] builds. *)
Definition formatDSN_Config (user password address dbname params : string)
    : mysql_Config :=
  {| User := user; Passwd := password; Addr := address; DBName := dbname;
     Params := paramsMap params |}.

(** [formatDSN]; [FormatDSN] is the method of the mysql driver that writes
    the configuration out as a string. *)
Definition formatDSN (FormatDSN : mysql_Config -> string)
    (user password address dbname params : string) : string :=
  FormatDSN (formatDSN_Config user password address dbname params).

(** The parameter string that lists the given settings: [key=value] pieces
    joined with [&]. *)
Definition param_string (kv : string * string) : string :=
  fst kv ++ "=" ++ snd kv.

Fixpoint join_params (kvs : list (string * string)) : string :=
  match kvs with
  | [] => EmptyString
  | [kv] => param_string kv
  | kv :: kvs' => param_string kv ++ "&" ++ join_params kvs'
  end.

(** A string without the byte [c]. *)
Fixpoint without (c : Ascii.ascii) (s : string) : bool :=
  match s with
  | EmptyString => true
  | String c' s' => negb (Ascii.eqb c' c) && without c s'
  end.

(** Whether what happens to the loop is a tick. *)
Definition is_tick (h : cmd.happening) : bool :=
  match h with
  | cmd.tick => true
  | cmd.returns _ => false
  end.

(** The goroutines in flight carry distinct numbers, all below the number
    of goroutines started so far. *)
Definition well_numbered (p : cmd.goroutines) : Prop :=
  List.NoDup (cmd.in_flight p) /\
  List.Forall (fun g => (g < cmd.started_so_far p)%nat) (cmd.in_flight p).

(** The main goroutine of [run] to its end. The last statement of [run] is
    [log.Fatal(http.ListenAndServe(...))]: [http_ListenAndServe] gives, for
    a port, the error with which the call returns, or [None] when it goes
    on serving and never returns. *)
Inductive main_end {CatalogConfig : Type} :=
| fatal_before_start (err : cmd.error)
| blocked_in_select (s : cmd.started CatalogConfig)
| serving (s : cmd.started CatalogConfig)
| fatal_after_ListenAndServe (s : cmd.started CatalogConfig)
    (err : cmd.error).
Arguments main_end : clear implicits.

Definition run_main {CatalogConfig : Type} (env : cmd.Env CatalogConfig)
    (http_ListenAndServe : Z -> option cmd.error) (g : cmd.Globals)
    : main_end CatalogConfig :=
  match cmd.run env g with
  | cmd.log_Fatal err => fatal_before_start err
  | cmd.running s =>
      match cmd.started_serve s with
      | None => blocked_in_select s
      | Some port =>
          match http_ListenAndServe port with
          | Some err => fatal_after_ListenAndServe s err
          | None => serving s
          end
      end
  end.

(** The error that the main goroutine hands to [log.Fatal], if it does. *)
Definition main_fatal {CatalogConfig : Type} (e : main_end CatalogConfig)
    : option cmd.error :=
  match e with
  | fatal_before_start err => Some err
  | fatal_after_ListenAndServe _ err => Some err
  | blocked_in_select _ => None
  | serving _ => None
  end.

(** The names of the flags that [init] binds to a package variable. *)
Definition bound_flags : list string :=
  ["port"; "p"; "cache"; "config"; "validate"; "sqlite"; "migrate-db"].

End cmdaux.

(** ** Package [model], continued: the join read row by row *)

Module modelaux.
Import model.

(** The row [v] has a template of the folder name [template] in a catalog
    of the name [catalog]: the join conditions of the two queries, for one
    row of [catalog_version]. *)
Definition of_template_b {Base : Type} (db : DB Base)
    (catalog template : string) (v : catalog_version_row Base) : bool :=
  existsb (fun t =>
    N.eqb (v_template_id v) (t_id t)
    && String.eqb (t_folder_name t) template
    && existsb (fun c =>
         N.eqb (t_catalog_id t) (c_id c) && String.eqb (c_name c) catalog)
         (tbl_catalog db))
    (tbl_catalog_template db).

Definition visible_b {Base : Type} (environmentId : string)
    (v : catalog_version_row Base) : bool :=
  String.eqb (v_environment_id v) environmentId
  || String.eqb (v_environment_id v) "global".

(** A store whose one version row has the zero value in every column,
    under a template and a catalog that resolve. *)
Definition db_zero_row : DB N :=
  {| tbl_catalog_version :=
       [ {| v_base := 0%N; v_environment_id := EmptyString;
            v_template_id := 0%N; v_revision := 0;
            v_version := EmptyString;
            v_minimum_rancher_version := EmptyString;
            v_maximum_rancher_version := EmptyString;
            v_upgrade_from := EmptyString;
            v_readme := EmptyString |} ];
     tbl_catalog_template :=
       [ {| t_id := 0; t_catalog_id := 1; t_folder_name := "mytemplate" |} ];
     tbl_catalog := [ {| c_id := 1; c_name := "mycatalog" |} ] |}.

End modelaux.

(** ** Concrete stores, managers and environments

    Small instances on which the lookups and the bootstrap are evaluated.
    [Base] is instantiated with the row id; there are no files and no
    questions. *)

Module sample.
Import model cmd.

Definition version_row (id : N) (environment_id : string) (template_id : N)
    (revision : Z) (version : string) : catalog_version_row N :=
  {| v_base := id; v_environment_id := environment_id;
     v_template_id := template_id; v_revision := revision;
     v_version := version;
     v_minimum_rancher_version := EmptyString;
     v_maximum_rancher_version := EmptyString;
     v_upgrade_from := EmptyString;
     v_readme := EmptyString |}.

(** One catalog with one template; one version scoped to each of
    ["env-A"], ["global"] and ["env-B"]. *)
Definition db_scoped : DB N :=
  {| tbl_catalog_version :=
       [ version_row 1 "env-A" 1 1 "0.1.0";
         version_row 2 "global" 1 2 "0.2.0";
         version_row 3 "env-B" 1 3 "0.3.0" ];
     tbl_catalog_template :=
       [ {| t_id := 1; t_catalog_id := 1; t_folder_name := "mytemplate" |} ];
     tbl_catalog := [ {| c_id := 1; c_name := "mycatalog" |} ] |}.

(** The template exists and has no version at all. *)
Definition db_no_versions : DB N :=
  {| tbl_catalog_version := [];
     tbl_catalog_template :=
       [ {| t_id := 1; t_catalog_id := 1; t_folder_name := "mytemplate" |} ];
     tbl_catalog := [ {| c_id := 1; c_name := "mycatalog" |} ] |}.

(** One catalog holding two template rows of the same folder name, each
    with a version of revision 1. Catalog names are unique and so are the
    pairs of template id and revision. *)
Definition db_two_templates : DB N :=
  {| tbl_catalog_version :=
       [ version_row 1 "global" 1 1 "0.1.0";
         version_row 2 "global" 2 1 "0.1.0" ];
     tbl_catalog_template :=
       [ {| t_id := 1; t_catalog_id := 1; t_folder_name := "mytemplate" |};
         {| t_id := 2; t_catalog_id := 1; t_folder_name := "mytemplate" |} ];
     tbl_catalog := [ {| c_id := 1; c_name := "mycatalog" |} ] |}.

(** A manager whose state counts the calls of [RefreshAll] and whose
    [RefreshAll] fails when [fails] is set. *)
Record counting_manager := {
  fails : bool;
  refreshed : nat
}.

#[global] Instance counting_Manager : Manager counting_manager := {
  CreateConfigCatalogs m := (m, None);
  RefreshAll m :=
    ({| fails := fails m; refreshed := S (refreshed m) |},
     if fails m then Some "fetch failed" else None)
}.

(** No file can be read. *)
Definition env_no_file : Env unit :=
  {| ioutil_ReadFile := fun _ => inl "open ./repo.json: no such file or directory";
     json_Unmarshal := fun _ => inr None;
     gorm_Open := fun _ _ => None;
     mysql_dsn := EmptyString |}.

(** The file is read and its contents do not decode. *)
Definition env_bad_json : Env unit :=
  {| ioutil_ReadFile := fun _ => inr "[1, 2";
     json_Unmarshal := fun _ => inl "unexpected end of JSON input";
     gorm_Open := fun _ _ => None;
     mysql_dsn := EmptyString |}.

(** The file holds the empty object, which decodes to a table without a
    ["catalogs"] key. *)
Definition env_no_catalogs_key : Env unit :=
  {| ioutil_ReadFile := fun _ => inr "{}";
     json_Unmarshal := fun _ => inr (Some ∅);
     gorm_Open := fun _ _ => None;
     mysql_dsn := EmptyString |}.

End sample.

(** * Properties of the read model *)

Section ModelFacts.
Import model.
Context {Base File Question : Type}.
Implicit Types (db : DB Base) (v : catalog_version_row Base)
  (t : catalog_template_row) (c : catalog_row).

Lemma in_from_tables db v t c :
  In (v, t, c) (from_tables db) <->
  In v (tbl_catalog_version db) /\ In t (tbl_catalog_template db) /\
  In c (tbl_catalog db).
Proof.
  unfold from_tables. rewrite in_flat_map. split.
  - intros (v' & Hv & H). apply in_flat_map in H as (t' & Ht & H).
    apply in_map_iff in H as (c' & [= -> -> ->] & Hc). auto.
  - intros (Hv & Ht & Hc). exists v. split; [assumption|].
    apply in_flat_map. exists t. split; [assumption|].
    apply in_map_iff. exists c. auto.
Qed.

Lemma where_template_spec environmentId catalog template v t c :
  where_template environmentId catalog template (v, t, c) = true <->
  visible environmentId v /\ v_template_id v = t_id t /\
  t_catalog_id t = c_id c /\ c_name c = catalog /\
  t_folder_name t = template.
Proof.
  unfold where_template, visible.
  rewrite !andb_true_iff, orb_true_iff, !String.eqb_eq, !N.eqb_eq.
  tauto.
Qed.

Lemma where_revision_spec environmentId catalog template revision v t c :
  where_revision environmentId catalog template revision (v, t, c) = true <->
  where_template environmentId catalog template (v, t, c) = true /\
  v_revision v = revision.
Proof.
  unfold where_revision. cbn [fst].
  now rewrite andb_true_iff, Z.eqb_eq.
Qed.

Lemma in_select_versions db environmentId catalog template v :
  In v (select_versions db environmentId catalog template) <->
  In v (tbl_catalog_version db) /\ of_template db catalog template v /\
  visible environmentId v.
Proof.
  unfold select_versions, of_template. rewrite in_map_iff. split.
  - intros ([[v' t] c] & Hfst & Hin). cbn in Hfst. subst v'.
    apply filter_In in Hin as [Hin Hw].
    apply in_from_tables in Hin as (Hv & Ht & Hc).
    apply where_template_spec in Hw as (Hvis & H1 & H2 & H3 & H4).
    split; [assumption|]. split; [|assumption].
    exists t, c. repeat split; assumption.
  - intros (Hv & (t & c & Ht & Hc & H1 & H2 & H3 & H4) & Hvis).
    exists (v, t, c). split; [reflexivity|].
    apply filter_In. split.
    + apply in_from_tables. repeat split; assumption.
    + apply where_template_spec. repeat split; assumption.
Qed.

(** Without a template of that name in a catalog of that name, neither
    query selects a row. *)
Lemma resolves_spec db catalog template :
  resolves db catalog template = true <->
  exists t c, In t (tbl_catalog_template db) /\ In c (tbl_catalog db) /\
              t_catalog_id t = c_id c /\ c_name c = catalog /\
              t_folder_name t = template.
Proof.
  unfold resolves. rewrite existsb_exists. split.
  - intros (c & Hc & H). apply andb_true_iff in H as [Hn H].
    apply existsb_exists in H as (t & Ht & H).
    apply andb_true_iff in H as [Hi Hf].
    apply String.eqb_eq in Hn, Hf. apply N.eqb_eq in Hi.
    exists t, c. repeat split; assumption.
  - intros (t & c & Ht & Hc & Hi & Hn & Hf).
    exists c. split; [assumption|].
    apply andb_true_iff. split; [now apply String.eqb_eq|].
    apply existsb_exists. exists t. split; [assumption|].
    apply andb_true_iff. split; [now apply N.eqb_eq|now apply String.eqb_eq].
Qed.

Lemma of_template_resolves db catalog template v :
  of_template db catalog template v -> resolves db catalog template = true.
Proof.
  intros (t & c & Ht & Hc & _ & H). apply resolves_spec. exists t, c.
  repeat split; try assumption; apply H.
Qed.

Lemma no_in_nil {A : Type} (l : list A) : (forall x, ~ In x l) -> l = [].
Proof.
  destruct l as [|a l]; [reflexivity|].
  intros H. exfalso. apply (H a). now left.
Qed.

Lemma select_versions_unresolved db environmentId catalog template :
  resolves db catalog template = false ->
  select_versions db environmentId catalog template = [].
Proof.
  intros Hr. apply no_in_nil. intros v Hin.
  apply in_select_versions in Hin as (_ & Hof & _).
  apply of_template_resolves in Hof. congruence.
Qed.

Lemma select_version_incl db environmentId catalog template revision v :
  In v (select_version db environmentId catalog template revision) ->
  In v (select_versions db environmentId catalog template) /\
  v_revision v = revision.
Proof.
  unfold select_version, select_versions. rewrite !in_map_iff.
  intros ([[v' t] c] & Hfst & Hin). cbn in Hfst. subst v'.
  apply filter_In in Hin as [Hin Hw].
  apply where_revision_spec in Hw as [Hw Hrev].
  split; [|assumption].
  exists (v, t, c). split; [reflexivity|]. apply filter_In. auto.
Qed.

Lemma select_version_unresolved db environmentId catalog template revision :
  resolves db catalog template = false ->
  select_version db environmentId catalog template revision = [].
Proof.
  intros Hr. apply no_in_nil. intros v Hin.
  apply select_version_incl in Hin as [Hin _].
  rewrite (select_versions_unresolved _ _ _ _ Hr) in Hin. exact Hin.
Qed.

(** The loop of [LookupVersions] copies the [Version] of every scanned
    row, in order. *)
Lemma append_loop (vms : list (VersionModel Base File Question)) acc :
  fold_left (fun versions versionModel =>
               (versions ++ [VersionModel_Version versionModel])%list)
    vms acc
  = (acc ++ List.map VersionModel_Version vms)%list.
Proof.
  revert acc. induction vms as [|vm vms IH]; intros acc; cbn.
  - now rewrite app_nil_r.
  - rewrite IH, <- app_assoc. reflexivity.
Qed.

Lemma LookupVersions_rows (zero_Base : Base) db environmentId catalog template :
  LookupVersions (File:=File) (Question:=Question)
    zero_Base db environmentId catalog template
  = List.map version_of_row
      (select_versions db environmentId catalog template).
Proof.
  unfold LookupVersions, LookupVersions_scan, Scan_slice. cbn [fst].
  rewrite append_loop, map_map. reflexivity.
Qed.

End ModelFacts.

Section ModelClaims.
Import model.
Context {Base File Question : Type}.
Implicit Types (db : DB Base) (v : catalog_version_row Base)
  (t : catalog_template_row) (c : catalog_row).

(** C3. For every environment id, catalog name and template name, the
    Versions that [LookupVersions] returns are exactly those of the
    persisted rows of that catalog's template whose environment id is the
    given one or ["global"]; every returned Version carries one of these
    two environment ids, so none of another environment is returned. *)
Theorem LookupVersions_environment_scoping (zero_Base : Base) db
    (environmentId catalog template : string) :
  (forall ver : Version File Question,
      In ver (LookupVersions zero_Base db environmentId catalog template) <->
      exists v, In v (tbl_catalog_version db) /\
                of_template db catalog template v /\
                visible environmentId v /\
                ver = version_of_row v) /\
  Forall (fun ver : Version File Question =>
            EnvironmentId ver = environmentId \/
            EnvironmentId ver = "global")
    (LookupVersions zero_Base db environmentId catalog template).
Proof.
  rewrite LookupVersions_rows. split.
  - intros ver. rewrite in_map_iff. split.
    + intros (v & <- & Hin). apply in_select_versions in Hin.
      exists v. tauto.
    + intros (v & Hin & Hof & Hvis & ->). exists v.
      split; [reflexivity|]. apply in_select_versions. tauto.
  - apply List.Forall_forall. intros ver Hin.
    apply in_map_iff in Hin as (v & <- & Hin).
    apply in_select_versions in Hin as (_ & _ & Hvis). exact Hvis.
Qed.

(** C4, as the code has it. [LookupVersions] never fails with
    [NotFound]: for every store and all names [Scan] into the slice reports
    no error. It returns the empty result when no persisted row of the
    template is visible to the environment, and it returns the same empty
    result when the catalog or the template name does not resolve. *)
Theorem LookupVersions_empty_never_NotFound (zero_Base : Base) db
    (environmentId catalog template : string) :
  snd (LookupVersions_scan (File:=File) (Question:=Question)
         zero_Base db environmentId catalog template) = None /\
  (resolves db catalog template = false \/
   (forall v, In v (tbl_catalog_version db) ->
              of_template db catalog template v ->
              ~ visible environmentId v) ->
   LookupVersions (File:=File) (Question:=Question)
     zero_Base db environmentId catalog template = []).
Proof.
  split; [reflexivity|].
  intros Hnone. rewrite LookupVersions_rows.
  replace (select_versions db environmentId catalog template) with
    (@nil (catalog_version_row Base)); [reflexivity|].
  symmetry. destruct Hnone as [Hr | Hnone].
  - now apply select_versions_unresolved.
  - apply no_in_nil. intros v Hin.
    apply in_select_versions in Hin as (Hv & Hof & Hvis).
    exact (Hnone v Hv Hof Hvis).
Qed.

(** For names that do not resolve the outcome is the same: the empty
    result, and no error from [Scan]. *)
Lemma LookupVersions_unresolved (zero_Base : Base) db
    (environmentId catalog template : string) :
  resolves db catalog template = false ->
  LookupVersions (File:=File) (Question:=Question)
    zero_Base db environmentId catalog template = [] /\
  snd (LookupVersions_scan (File:=File) (Question:=Question)
         zero_Base db environmentId catalog template) = None.
Proof.
  intros Hr. split; [|reflexivity].
  rewrite LookupVersions_rows, (select_versions_unresolved _ _ _ _ Hr).
  reflexivity.
Qed.

(** C10. [LookupVersionModel] never returns the nil pointer, and when the
    query selects no row the record it points to is the zero value. *)
Theorem LookupVersionModel_never_nil (zero_Base : Base) db
    (environmentId catalog template : string) (revision : Z) :
  LookupVersionModel (File:=File) (Question:=Question)
    zero_Base db environmentId catalog template revision <> None /\
  (select_version db environmentId catalog template revision = [] ->
   LookupVersionModel (File:=File) (Question:=Question)
     zero_Base db environmentId catalog template revision
   = Some (zero_VersionModel zero_Base)).
Proof.
  split; [discriminate|].
  intros Hrows. unfold LookupVersionModel, LookupVersionModel_scan.
  rewrite Hrows. reflexivity.
Qed.

(** The same when the template is there and none of its rows is visible
    to the environment. *)
Lemma select_version_not_visible db
    (environmentId catalog template : string) (revision : Z) :
  (forall v, In v (tbl_catalog_version db) ->
             of_template db catalog template v ->
             ~ visible environmentId v) ->
  select_version db environmentId catalog template revision = [].
Proof.
  intros Hnone. apply no_in_nil. intros v Hin.
  apply select_version_incl in Hin as [Hin _].
  apply in_select_versions in Hin as (Hv & Hof & Hvis).
  exact (Hnone v Hv Hof Hvis).
Qed.

(** C5, as the code has it. When the catalog or the template does not
    resolve for the environment (no catalog of that name has a template of
    that name, or no row of the template is scoped to the environment or to
    ["global"]) [LookupVersionModel] does not fail and returns nothing
    absent: it returns a pointer that is not nil, to the zero-valued
    [VersionModel]. *)
Theorem LookupVersionModel_unresolved_is_zero_value (zero_Base : Base) db
    (environmentId catalog template : string) (revision : Z) :
  resolves db catalog template = false \/
  (forall v, In v (tbl_catalog_version db) ->
             of_template db catalog template v ->
             ~ visible environmentId v) ->
  LookupVersionModel (File:=File) (Question:=Question)
    zero_Base db environmentId catalog template revision
    = Some (zero_VersionModel zero_Base) /\
  LookupVersionModel (File:=File) (Question:=Question)
    zero_Base db environmentId catalog template revision <> None.
Proof.
  intros Hunres. split; [|discriminate].
  unfold LookupVersionModel, LookupVersionModel_scan.
  assert (Hrows : select_version db environmentId catalog template revision
                  = []).
  { destruct Hunres as [Hr | Hnone].
    - now apply select_version_unresolved.
    - now apply select_version_not_visible. }
  rewrite Hrows. reflexivity.
Qed.

End ModelClaims.

(** ** One row per revision *)

Section Uniqueness.
Import model.
Context {Base : Type}.
Implicit Types (db : DB Base) (v : catalog_version_row Base)
  (t : catalog_template_row) (c : catalog_row).

Lemma unique_key_rows {Row Key : Type} (key : Row -> Key) table :
  unique_key key table -> List.NoDup table.
Proof. apply NoDup_map_inv. Qed.

Lemma unique_key_inj {Row Key : Type} (key : Row -> Key) table x y :
  unique_key key table -> In x table -> In y table ->
  key x = key y -> x = y.
Proof.
  unfold unique_key. induction table as [|r table IH]; cbn; [tauto|].
  intros Hnd Hx Hy Hk. apply List.NoDup_cons_iff in Hnd as [Hnotin Hnd].
  destruct Hx as [-> | Hx], Hy as [-> | Hy].
  - reflexivity.
  - exfalso. apply Hnotin. rewrite Hk. now apply in_map.
  - exfalso. apply Hnotin. rewrite <- Hk. now apply in_map.
  - now apply IH.
Qed.

Lemma NoDup_flat_map_inj {A B : Type} (f : A -> list B) (l : list A) :
  List.NoDup l -> (forall a, In a l -> List.NoDup (f a)) ->
  (forall a a' b, In a l -> In a' l -> In b (f a) -> In b (f a') -> a = a') ->
  List.NoDup (flat_map f l).
Proof.
  induction l as [|a l IH]; cbn; intros Hnd Hf Hdisj; [constructor|].
  apply List.NoDup_cons_iff in Hnd as [Hnotin Hnd].
  apply List.NoDup_app.
  - apply Hf. now left.
  - apply IH; [assumption| |]; intros; eauto.
  - intros b Hb Hb'. apply in_flat_map in Hb' as (a' & Ha' & Hb').
    apply Hnotin.
    assert (a = a') as -> by (apply (Hdisj a a' b); auto).
    assumption.
Qed.

Lemma NoDup_map_pair {A B C : Type} (g : A -> B -> C) (l : list A) (b : B) :
  (forall a a', g a b = g a' b -> a = a') ->
  List.NoDup l -> List.NoDup (List.map (fun a => g a b) l).
Proof.
  intros Hinj. induction l as [|a l IH]; cbn; intros Hnd; [constructor|].
  apply List.NoDup_cons_iff in Hnd as [Hnotin Hnd].
  constructor; [|now apply IH].
  intros Hin. apply in_map_iff in Hin as (a' & Heq & Hin).
  apply Hinj in Heq. now subst.
Qed.

Lemma from_tables_NoDup db :
  List.NoDup (tbl_catalog_version db) -> List.NoDup (tbl_catalog_template db) ->
  List.NoDup (tbl_catalog db) -> List.NoDup (from_tables db).
Proof.
  intros Hv Ht Hc. unfold from_tables.
  apply NoDup_flat_map_inj; [assumption| |].
  - intros v _. apply NoDup_flat_map_inj; [assumption| |].
    + intros t _.
      apply (NoDup_map_pair (fun c '(v, t) => (v, t, c)) _ (v, t));
        [|assumption].
      now intros c c' [= ->].
    + intros t t' [[v0 t0] c0] _ _ H H'.
      apply in_map_iff in H as (? & [= _ <- _] & _).
      apply in_map_iff in H' as (? & [= _ <- _] & _). reflexivity.
  - intros v v' [[v0 t0] c0] _ _ H H'.
    apply in_flat_map in H as (? & _ & H).
    apply in_map_iff in H as (? & [= <- _ _] & _).
    apply in_flat_map in H' as (? & _ & H').
    apply in_map_iff in H' as (? & [= <- _ _] & _). reflexivity.
Qed.

Lemma length_le_1 {A : Type} (l : list A) :
  List.NoDup l -> (forall x y, In x l -> In y l -> x = y) ->
  (length l <= 1)%nat.
Proof.
  destruct l as [|a [|b l]]; cbn; intros Hnd Heq; [lia|lia|].
  exfalso. apply List.NoDup_cons_iff in Hnd as [Hnotin _].
  apply Hnotin. rewrite (Heq a b); cbn; auto.
Qed.

(** C6, with the missing premise. When catalog names are unique,
    template folder names are unique within a catalog, and the pairs of
    template and revision are unique, the query of [LookupVersionModel]
    selects at most one row, for every environment id, catalog name,
    template name and revision. *)
Theorem getVersion_at_most_one_row db
    (environmentId catalog template : string) (revision : Z) :
  unique_key c_name (tbl_catalog db) ->
  unique_key (fun t => (t_catalog_id t, t_folder_name t))
    (tbl_catalog_template db) ->
  unique_key (fun v => (v_template_id v, v_revision v))
    (tbl_catalog_version db) ->
  (length (select_version db environmentId catalog template revision)
   <= 1)%nat.
Proof.
  intros Hc Ht Hv. unfold select_version. rewrite length_map.
  apply length_le_1.
  - apply List.NoDup_filter, from_tables_NoDup;
      eauto using unique_key_rows.
  - intros [[v1 t1] c1] [[v2 t2] c2] H1 H2.
    apply filter_In in H1 as [H1 W1]. apply filter_In in H2 as [H2 W2].
    apply in_from_tables in H1 as (Hv1 & Ht1 & Hc1).
    apply in_from_tables in H2 as (Hv2 & Ht2 & Hc2).
    apply where_revision_spec in W1 as [W1 R1].
    apply where_revision_spec in W2 as [W2 R2].
    apply where_template_spec in W1 as (_ & A1 & B1 & C1 & D1).
    apply where_template_spec in W2 as (_ & A2 & B2 & C2 & D2).
    assert (c1 = c2) as ->
      by (apply (unique_key_inj c_name (tbl_catalog db)); congruence).
    assert (t1 = t2) as ->.
    { apply (unique_key_inj _ _ _ _ Ht); [assumption|assumption|].
      cbn. congruence. }
    assert (v1 = v2) as ->.
    { apply (unique_key_inj _ _ _ _ Hv); [assumption|assumption|].
      cbn. congruence. }
    reflexivity.
Qed.

End Uniqueness.

(** C6 as it is worded, with unique catalog names and unique pairs of
    template and revision only, fails: in [sample.db_two_templates] both
    premises hold and the query for revision 1 selects two rows. *)
Lemma getVersion_two_rows_match :
  model.unique_key model.c_name (model.tbl_catalog sample.db_two_templates) /\
  model.unique_key (fun v => (model.v_template_id v, model.v_revision v))
    (model.tbl_catalog_version sample.db_two_templates) /\
  ~ (length (model.select_version sample.db_two_templates
               "env-A" "mycatalog" "mytemplate" 1) <= 1)%nat.
Proof.
  unfold model.unique_key. cbn. repeat split.
  - repeat constructor. cbn. tauto.
  - repeat constructor; cbn; intuition congruence.
  - lia.
Qed.

Lemma getVersion_at_most_one_row_witness :
  model.unique_key model.c_name (model.tbl_catalog sample.db_scoped) /\
  model.unique_key (fun t => (model.t_catalog_id t, model.t_folder_name t))
    (model.tbl_catalog_template sample.db_scoped) /\
  model.unique_key (fun v => (model.v_template_id v, model.v_revision v))
    (model.tbl_catalog_version sample.db_scoped) /\
  (length (model.select_version sample.db_scoped
             "env-A" "mycatalog" "mytemplate" 1) <= 1)%nat.
Proof.
  assert (Hc : model.unique_key model.c_name
                 (model.tbl_catalog sample.db_scoped)).
  { unfold model.unique_key. cbn. repeat constructor. cbn. tauto. }
  assert (Ht : model.unique_key
                 (fun t => (model.t_catalog_id t, model.t_folder_name t))
                 (model.tbl_catalog_template sample.db_scoped)).
  { unfold model.unique_key. cbn. repeat constructor. cbn. tauto. }
  assert (Hv : model.unique_key
                 (fun v => (model.v_template_id v, model.v_revision v))
                 (model.tbl_catalog_version sample.db_scoped)).
  { unfold model.unique_key. cbn.
    repeat constructor; cbn; intuition congruence. }
  repeat split; try assumption.
  exact (getVersion_at_most_one_row sample.db_scoped
           "env-A" "mycatalog" "mytemplate" 1 Hc Ht Hv).
Defined.

(** C4 as it is worded fails, read as the specification has it, with a
    [NotFound] for names that do not resolve: the template name below does
    not resolve, and the outcome is the empty result with no error, the
    very outcome for a template that resolves and has no version. *)
Lemma listVersions_unresolved_is_not_NotFound :
  model.resolves sample.db_scoped "mycatalog" "nosuchtemplate" = false /\
  snd (model.LookupVersions_scan (File:=unit) (Question:=unit)
         0%N sample.db_scoped "env-A" "mycatalog" "nosuchtemplate")
    <> Some model.ErrRecordNotFound /\
  model.LookupVersions (File:=unit) (Question:=unit)
    0%N sample.db_scoped "env-A" "mycatalog" "nosuchtemplate" = [] /\
  model.resolves sample.db_no_versions "mycatalog" "mytemplate" = true /\
  model.LookupVersions (File:=unit) (Question:=unit)
    0%N sample.db_no_versions "env-A" "mycatalog" "mytemplate" = [].
Proof. repeat split. discriminate. Qed.

Lemma LookupVersions_empty_never_NotFound_witness :
  model.resolves sample.db_scoped "mycatalog" "nosuchtemplate" = false /\
  model.LookupVersions (File:=unit) (Question:=unit)
    0%N sample.db_scoped "env-A" "mycatalog" "nosuchtemplate" = [].
Proof.
  split; [reflexivity|].
  apply (proj2 (LookupVersions_empty_never_NotFound
                  0%N sample.db_scoped
                  "env-A" "mycatalog" "nosuchtemplate")).
  left. reflexivity.
Defined.

Lemma LookupVersionModel_never_nil_witness :
  model.select_version sample.db_scoped "env-A" "mycatalog" "mytemplate" 3
    = [] /\
  model.LookupVersionModel (File:=unit) (Question:=unit)
    0%N sample.db_scoped "env-A" "mycatalog" "mytemplate" 3
    = Some (model.zero_VersionModel 0%N).
Proof.
  split; [reflexivity|].
  apply (proj2 (LookupVersionModel_never_nil 0%N sample.db_scoped
                  "env-A" "mycatalog" "mytemplate" 3)).
  reflexivity.
Defined.

(** C5 as it is worded fails: the template name below does not resolve,
    and what [LookupVersionModel] returns is not absent. It is a pointer
    that is not nil, to the very record that the lookup of a stored row
    with the zero value in every column returns. *)
Lemma getVersion_unresolved_is_not_absent :
  model.resolves sample.db_scoped "mycatalog" "nosuchtemplate" = false /\
  model.LookupVersionModel (File:=unit) (Question:=unit)
    0%N sample.db_scoped "env-A" "mycatalog" "nosuchtemplate" 1 <> None /\
  model.select_version modelaux.db_zero_row
    EmptyString "mycatalog" "mytemplate" 0 <> [] /\
  model.LookupVersionModel (File:=unit) (Question:=unit)
    0%N sample.db_scoped "env-A" "mycatalog" "nosuchtemplate" 1
  = model.LookupVersionModel
      0%N modelaux.db_zero_row EmptyString "mycatalog" "mytemplate" 0.
Proof. repeat split; discriminate. Qed.

Lemma LookupVersionModel_unresolved_is_zero_value_witness :
  model.resolves sample.db_scoped "mycatalog" "nosuchtemplate" = false /\
  model.LookupVersionModel (File:=unit) (Question:=unit)
    0%N sample.db_scoped "env-A" "mycatalog" "nosuchtemplate" 1
    = Some (model.zero_VersionModel 0%N).
Proof.
  split; [reflexivity|].
  apply (proj1 (LookupVersionModel_unresolved_is_zero_value
                  0%N sample.db_scoped
                  "env-A" "mycatalog" "nosuchtemplate" 1
                  (or_introl eq_refl))).
Defined.

(** The scoping example of the specification: from ["env-A"] the versions
    of ["env-A"] and ["global"] are listed, the one of ["env-B"] is not. *)
Example listVersions_env_A :
  List.map model.Version'
    (model.LookupVersions (File:=unit) (Question:=unit)
       0%N sample.db_scoped "env-A" "mycatalog" "mytemplate")
  = ["0.1.0"; "0.2.0"].
Proof. reflexivity. Qed.

(** * Properties of the bootstrap *)

Section ConfigClaims.
Import cmd.
Context {CatalogConfig : Type}.
Implicit Types (env : Env CatalogConfig) (g : Globals).

(** C8. When the config file cannot be read, or its contents do not
    decode as the catalog mapping, [readConfig] returns that error and
    [run] ends in [log.Fatal]: the process terminates before the database
    is opened, before [refresh] is started and before anything is
    served. *)
Theorem config_error_is_fatal env g (err : error) :
  ioutil_ReadFile env (configFile g) = inl err \/
  (exists configContents,
      ioutil_ReadFile env (configFile g) = inr configContents /\
      json_Unmarshal env configContents = inl err) ->
  readConfig env (configFile g) = (None, Some err) /\
  run env g = log_Fatal err.
Proof.
  intros [Hread | (configContents & Hread & Hjson)];
    unfold run, readConfig; rewrite Hread; [|rewrite Hjson];
    split; reflexivity.
Qed.

(** C9. When the file decodes to a table without a ["catalogs"] key,
    [readConfig] returns the nil mapping and no error; [run] goes on
    with that nil mapping and, the database once opened, is running with
    no configured catalog. *)
Theorem readConfig_without_catalogs_key env g (configContents : string)
    (table : gmap string (gomap CatalogConfig)) :
  ioutil_ReadFile env (configFile g) = inr configContents ->
  json_Unmarshal env configContents = inr (Some table) ->
  table !! "catalogs" = None ->
  readConfig env (configFile g) = (None, None) /\
  run env g = run_with_config env g None /\
  (gorm_Open env (if sqlite g then "sqlite3" else "mysql")
     (if sqlite g then "local.db" else mysql_dsn env) = None ->
   exists s, run env g = running s /\ started_config s = None).
Proof.
  intros Hread Hjson Hkey.
  assert (Hcfg : readConfig env (configFile g) = (None, None)).
  { unfold readConfig, index. rewrite Hread, Hjson, Hkey. reflexivity. }
  split; [assumption|]. unfold run. rewrite Hcfg.
  split; [reflexivity|].
  intros Hopen. unfold run_with_config. rewrite Hopen.
  eexists. split; reflexivity.
Qed.

End ConfigClaims.

Lemma config_error_is_fatal_witness :
  cmd.ioutil_ReadFile sample.env_no_file
    (cmd.configFile (cmd.parse_flags []))
  = inl "open ./repo.json: no such file or directory" /\
  cmd.run sample.env_no_file (cmd.parse_flags [])
  = cmd.log_Fatal "open ./repo.json: no such file or directory".
Proof.
  split; [reflexivity|].
  apply (proj2 (config_error_is_fatal sample.env_no_file
                  (cmd.parse_flags []) _ (or_introl eq_refl))).
Defined.

(** The other way into the same end: the file is read and does not
    decode. *)
Example config_malformed_is_fatal :
  cmd.run sample.env_bad_json (cmd.parse_flags [])
  = cmd.log_Fatal "unexpected end of JSON input".
Proof. reflexivity. Qed.

Lemma readConfig_without_catalogs_key_witness :
  cmd.readConfig sample.env_no_catalogs_key
    (cmd.configFile (cmd.parse_flags [])) = (None, None).
Proof.
  apply (proj1 (readConfig_without_catalogs_key sample.env_no_catalogs_key
                  (cmd.parse_flags []) "{}" ∅ eq_refl eq_refl eq_refl)).
Defined.

Section RefreshClaims.
Import cmd.
Context {M : Type} `{Manager M}.

(** C2, as the code has it. When the initial pass fails, that is when
    [RefreshAll] returns an error, [refresh] ends in [log.Fatalf] and the
    whole process is terminated, in normal mode as in validate-only
    mode. *)
Theorem initial_refresh_failure_is_fatal (m m1 m2 : M) (err : error)
    (refreshInterval : Z) (validateOnly : bool) :
  CreateConfigCatalogs m = (m1, None) ->
  RefreshAll m1 = (m2, Some err) ->
  refresh m refreshInterval validateOnly
  = log_Fatalf "Failed to do initial refresh of catalogs: %v" err.
Proof.
  intros Hcreate Hrefresh. unfold refresh.
  rewrite Hcreate, Hrefresh. reflexivity.
Qed.

(** What the mode does change is the end of a pass that succeeded: exit
    with status 0, or the loop over the ticker. *)
Lemma initial_refresh_success (m m1 m2 : M) (refreshInterval : Z)
    (validateOnly : bool) :
  CreateConfigCatalogs m = (m1, None) ->
  RefreshAll m1 = (m2, None) ->
  refresh m refreshInterval validateOnly
  = if validateOnly then os_Exit 0
    else ranging m2 (time.Tick (time.seconds refreshInterval)).
Proof.
  intros Hcreate Hrefresh. unfold refresh.
  rewrite Hcreate, Hrefresh. reflexivity.
Qed.

End RefreshClaims.

(** C2 as it is worded fails: with a manager whose initial pass fails and
    validate-only mode off, [refresh] terminates the process instead of
    going on to the loop. *)
Lemma initial_refresh_failure_normal_mode :
  snd (cmd.RefreshAll {| sample.fails := true; sample.refreshed := 0 |})
  = Some "fetch failed" /\
  cmd.refresh {| sample.fails := true; sample.refreshed := 0 |} 60 false
  = cmd.log_Fatalf "Failed to do initial refresh of catalogs: %v"
      "fetch failed" /\
  ~ (exists m' ch,
        cmd.refresh {| sample.fails := true; sample.refreshed := 0 |} 60 false
        = cmd.ranging m' ch).
Proof.
  cbn. repeat split. intros (m' & ch & Heq). discriminate Heq.
Qed.

Lemma initial_refresh_failure_is_fatal_witness :
  cmd.refresh {| sample.fails := true; sample.refreshed := 0 |} 60 false
  = cmd.log_Fatalf "Failed to do initial refresh of catalogs: %v"
      "fetch failed".
Proof.
  apply (initial_refresh_failure_is_fatal
           {| sample.fails := true; sample.refreshed := 0 |}
           {| sample.fails := true; sample.refreshed := 0 |}
           {| sample.fails := true; sample.refreshed := 1 |}
           "fetch failed" 60 false); reflexivity.
Defined.

(** ** The periodic loop *)

Section Loop.
Import cmd.

(** Whatever is in flight, a value on the channel starts one more
    [RefreshAll]: the body has no guard. *)
Lemma tick_starts_a_refresh (d : Z) (p : goroutines) :
  loop_step (Some d) p tick = Some (loop_body p) /\
  in_flight (loop_body p) = started_so_far p :: in_flight p.
Proof. split; reflexivity. Qed.

Lemma set_flag_refreshInterval (g : Globals) (f : string * flag_value) :
  refreshInterval (set_flag g f) = refreshInterval g.
Proof.
  destruct f as [name [n | s | b]]; cbn;
    repeat match goal with
           | |- context [if ?c then _ else _] => destruct c
           end; reflexivity.
Qed.

(** No flag is bound to the package variable [refreshInterval]: it is 0
    when [run] hands it to [refresh], whatever the command line. *)
Lemma refreshInterval_never_set (args : list (string * flag_value)) :
  refreshInterval (parse_flags args) = 0.
Proof.
  unfold parse_flags.
  assert (Hgen : forall g, refreshInterval (fold_left set_flag args g)
                           = refreshInterval g).
  { induction args as [|f args IH]; intros g; cbn; [reflexivity|].
    rewrite IH. apply set_flag_refreshInterval. }
  rewrite Hgen. reflexivity.
Qed.

Lemma run_hands_over_refreshInterval {CatalogConfig : Type}
    (env : Env CatalogConfig) (g : Globals) (s : started CatalogConfig) :
  run env g = running s ->
  started_refreshInterval s = refreshInterval g /\
  started_validateOnly s = validateOnly g.
Proof.
  unfold run, run_with_config.
  destruct (readConfig env (configFile g)) as [config [err|]];
    [discriminate|].
  destruct (gorm_Open env _ _); [discriminate|].
  intros [= <-]. split; reflexivity.
Qed.

(** On the nil channel the loop never runs its body: no goroutine is ever
    started by it. *)
Lemma nil_channel_starts_nothing (hs : list happening) (p p' : goroutines) :
  loop_run None hs p = Some p' -> started_so_far p' = started_so_far p.
Proof.
  revert p. induction hs as [|h hs IH]; intros p; cbn.
  - now intros [= ->].
  - destruct h as [|g]; cbn; [discriminate|].
    destruct (existsb (Nat.eqb g) (in_flight p)); [|discriminate].
    intros Hrun. apply IH in Hrun. exact Hrun.
Qed.

End Loop.

(** C1, what the code does. With an interval of 60 seconds [refresh]
    reaches the loop over a ticker; two ticks with no [RefreshAll] returning
    in between leave two of them in flight: the second tick does not skip
    anything. *)
Theorem second_tick_overlaps_first_refresh :
  cmd.refresh {| sample.fails := false; sample.refreshed := 0 |} 60 false
  = cmd.ranging {| sample.fails := false; sample.refreshed := 1 |}
      (Some 60000000000) /\
  cmd.loop_run (Some 60000000000) [cmd.tick; cmd.tick] cmd.no_goroutines
  = Some {| cmd.started_so_far := 2; cmd.in_flight := [1%nat; 0%nat] |}.
Proof. split; reflexivity. Qed.

(** C7, what the code does. For every command line, the interval that
    [run] hands to [refresh] is 0, [time.Tick] returns the nil channel for
    it, and no tick is ever received: the loop body is never run. *)
Theorem periodic_refresh_never_starts
    (args : list (string * cmd.flag_value)) (p : cmd.goroutines) :
  cmd.refreshInterval (cmd.parse_flags args) = 0 /\
  time.Tick (time.seconds (cmd.refreshInterval (cmd.parse_flags args)))
  = None /\
  cmd.loop_step
    (time.Tick (time.seconds (cmd.refreshInterval (cmd.parse_flags args))))
    p cmd.tick = None.
Proof.
  rewrite refreshInterval_never_set. repeat split.
Qed.

(** Asking for 60 seconds on the command line changes nothing. *)
Example refresh_interval_flag_is_ignored :
  cmd.refreshInterval
    (cmd.parse_flags [("refresh-interval", cmd.IntValue 60)]) = 0.
Proof. reflexivity. Qed.

(** * Further properties of the read model *)

Section ModelExtras.
Import model modelaux.
Context {Base File Question : Type}.
Implicit Types (db : DB Base) (v : catalog_version_row Base)
  (t : catalog_template_row) (c : catalog_row).

Lemma in_select_version db environmentId catalog template revision v :
  In v (select_version db environmentId catalog template revision) <->
  In v (tbl_catalog_version db) /\ of_template db catalog template v /\
  visible environmentId v /\ v_revision v = revision.
Proof.
  split.
  - intros Hin. apply select_version_incl in Hin as [Hin Hrev].
    apply in_select_versions in Hin. tauto.
  - intros (Hv & (t & c & Ht & Hc & H1 & H2 & H3 & H4) & Hvis & Hrev).
    unfold select_version. apply in_map_iff.
    exists (v, t, c). split; [reflexivity|].
    apply filter_In. split.
    + apply in_from_tables. repeat split; assumption.
    + apply where_revision_spec. split; [|assumption].
      apply where_template_spec. repeat split; assumption.
Qed.

(** Scanning never touches [Files] and [Questions]. *)
Lemma fold_scan_row_files (rows : list (catalog_version_row Base))
    (dest : VersionModel Base File Question) :
  Files (VersionModel_Version (fold_left scan_row rows dest))
  = Files (VersionModel_Version dest) /\
  Questions (VersionModel_Version (fold_left scan_row rows dest))
  = Questions (VersionModel_Version dest).
Proof.
  revert dest. induction rows as [|r rows IH]; intros dest; cbn.
  - split; reflexivity.
  - destruct (IH (scan_row dest r)) as [-> ->]. split; reflexivity.
Qed.

Lemma scan_row_dest (d d' : VersionModel Base File Question) v :
  Files (VersionModel_Version d) = Files (VersionModel_Version d') ->
  Questions (VersionModel_Version d) = Questions (VersionModel_Version d') ->
  scan_row d v = scan_row d' v.
Proof. unfold scan_row. now intros -> ->. Qed.

(** After a scan of one row or more, the destination holds the last. *)
Lemma fold_scan_row_last (rows : list (catalog_version_row Base))
    (dest : VersionModel Base File Question) :
  rows <> [] ->
  exists v, In v rows /\ fold_left scan_row rows dest = scan_row dest v.
Proof.
  intros Hne. destruct (exists_last Hne) as (rows' & v & ->).
  exists v. split; [apply in_or_app; right; now left|].
  rewrite fold_left_app. cbn.
  apply scan_row_dest; apply fold_scan_row_files.
Qed.

(** When the query selects anything, the record returned is the scan of
    one of the selected rows into the zero value. *)
Lemma LookupVersionModel_scans_selected (zero_Base : Base) db
    (environmentId catalog template : string) (revision : Z) v :
  In v (select_version db environmentId catalog template revision) ->
  exists v',
    In v' (select_version db environmentId catalog template revision) /\
    LookupVersionModel (File:=File) (Question:=Question)
      zero_Base db environmentId catalog template revision
    = Some (scan_row (zero_VersionModel zero_Base) v').
Proof.
  intros Hin.
  destruct (fold_scan_row_last
              (select_version db environmentId catalog template revision)
              (zero_VersionModel (File:=File) (Question:=Question) zero_Base))
    as (v' & Hin' & Hfold).
  { intros Hnil. rewrite Hnil in Hin. exact Hin. }
  exists v'. split; [assumption|].
  unfold LookupVersionModel, LookupVersionModel_scan, Scan_struct. cbn [fst].
  now rewrite Hfold.
Qed.

(** A row that matches the request: the result of [LookupVersionModel] is
    the scan of a persisted row of that template, visible to the
    environment and of the requested revision. *)
Theorem LookupVersionModel_returns_matching_row (zero_Base : Base) db
    (environmentId catalog template : string) (revision : Z) v :
  In v (tbl_catalog_version db) -> of_template db catalog template v ->
  visible environmentId v -> v_revision v = revision ->
  exists v',
    In v' (tbl_catalog_version db) /\ of_template db catalog template v' /\
    visible environmentId v' /\ v_revision v' = revision /\
    LookupVersionModel (File:=File) (Question:=Question)
      zero_Base db environmentId catalog template revision
    = Some (scan_row (zero_VersionModel zero_Base) v').
Proof.
  intros Hv Hof Hvis Hrev.
  destruct (LookupVersionModel_scans_selected zero_Base db environmentId
              catalog template revision v)
    as (v' & Hin' & Heq); [apply in_select_version; tauto|].
  apply in_select_version in Hin' as (Hv' & Hof' & Hvis' & Hrev').
  exists v'. repeat split; assumption.
Qed.

Lemma select_version_single db
    (environmentId catalog template : string) (revision : Z) v :
  unique_key c_name (tbl_catalog db) ->
  unique_key (fun t => (t_catalog_id t, t_folder_name t))
    (tbl_catalog_template db) ->
  unique_key (fun v => (v_template_id v, v_revision v))
    (tbl_catalog_version db) ->
  In v (select_version db environmentId catalog template revision) ->
  forall v',
    In v' (select_version db environmentId catalog template revision) ->
    v' = v.
Proof.
  intros Hc Ht Hv Hin v' Hin'.
  apply in_select_version in Hin
    as (Hv1 & (t1 & c1 & Ht1 & Hc1 & A1 & B1 & C1 & D1) & _ & R1).
  apply in_select_version in Hin'
    as (Hv2 & (t2 & c2 & Ht2 & Hc2 & A2 & B2 & C2 & D2) & _ & R2).
  assert (c1 = c2) as ->
    by (apply (unique_key_inj c_name (tbl_catalog db)); congruence).
  assert (t1 = t2) as ->.
  { apply (unique_key_inj _ _ _ _ Ht); [assumption|assumption|].
    cbn. congruence. }
  apply (unique_key_inj _ _ _ _ Hv); [assumption|assumption|].
  cbn. congruence.
Qed.

(** Under the three uniqueness constraints, looking up the revision of a
    persisted row of the template that is visible to the environment gives
    that very row. *)
Theorem LookupVersionModel_finds_persisted_row (zero_Base : Base) db
    (environmentId catalog template : string) v :
  unique_key c_name (tbl_catalog db) ->
  unique_key (fun t => (t_catalog_id t, t_folder_name t))
    (tbl_catalog_template db) ->
  unique_key (fun v => (v_template_id v, v_revision v))
    (tbl_catalog_version db) ->
  In v (tbl_catalog_version db) -> of_template db catalog template v ->
  visible environmentId v ->
  LookupVersionModel (File:=File) (Question:=Question)
    zero_Base db environmentId catalog template (v_revision v)
  = Some (scan_row (zero_VersionModel zero_Base) v).
Proof.
  intros Hc Ht Hvk Hv Hof Hvis.
  assert (Hin : In v (select_version db environmentId catalog template
                        (v_revision v)))
    by (apply in_select_version; tauto).
  destruct (LookupVersionModel_scans_selected zero_Base db environmentId
              catalog template (v_revision v) v Hin)
    as (v' & Hin' & ->).
  assert (v' = v) as ->; [|reflexivity].
  exact (select_version_single db environmentId catalog template
           (v_revision v) v Hc Ht Hvk Hin v' Hin').
Qed.

(** Neither lookup loads the files or the questions of a version: in every
    result both slices are empty. *)
Theorem lookups_leave_Files_and_Questions_empty (zero_Base : Base) db
    (environmentId catalog template : string) (revision : Z) :
  (exists vm : VersionModel Base File Question,
      LookupVersionModel zero_Base db environmentId catalog template revision
      = Some vm /\
      Files (VersionModel_Version vm) = [] /\
      Questions (VersionModel_Version vm) = []) /\
  Forall (fun ver : Version File Question =>
            Files ver = [] /\ Questions ver = [])
    (LookupVersions zero_Base db environmentId catalog template).
Proof.
  split.
  - eexists. split; [reflexivity|].
    unfold LookupVersionModel_scan, Scan_struct. cbn [fst].
    apply fold_scan_row_files.
  - rewrite LookupVersions_rows. apply List.Forall_forall.
    intros ver Hin. apply in_map_iff in Hin as (v & <- & _).
    split; reflexivity.
Qed.

(** What [LookupVersionModel] finds, [LookupVersions] lists: when a row
    matches the request, the Version of the record returned is among the
    Versions listed for the same environment, catalog and template. *)
Theorem found_version_is_listed (zero_Base : Base) db
    (environmentId catalog template : string) (revision : Z) v :
  In v (tbl_catalog_version db) -> of_template db catalog template v ->
  visible environmentId v -> v_revision v = revision ->
  exists vm : VersionModel Base File Question,
    LookupVersionModel zero_Base db environmentId catalog template revision
    = Some vm /\
    In (VersionModel_Version vm)
      (LookupVersions zero_Base db environmentId catalog template).
Proof.
  intros Hv Hof Hvis Hrev.
  destruct (LookupVersionModel_scans_selected zero_Base db environmentId
              catalog template revision v)
    as (v' & Hin' & Heq); [apply in_select_version; tauto|].
  eexists. split; [exact Heq|].
  rewrite LookupVersions_rows. apply in_map_iff.
  exists v'. split; [reflexivity|].
  apply select_version_incl in Hin'. tauto.
Qed.

(** The fallback to ["global"]: whatever is listed for the environment
    ["global"] is listed for every environment. *)
Theorem global_versions_listed_everywhere (zero_Base : Base) db
    (environmentId catalog template : string) :
  incl (LookupVersions (File:=File) (Question:=Question)
          zero_Base db "global" catalog template)
       (LookupVersions zero_Base db environmentId catalog template).
Proof.
  intros ver. rewrite !LookupVersions_rows, !in_map_iff.
  intros (v & <- & Hin). exists v. split; [reflexivity|].
  apply in_select_versions in Hin as (Hv & Hof & Hvis).
  apply in_select_versions. repeat split; try assumption.
  right. destruct Hvis; assumption.
Qed.

End ModelExtras.

(** ** The join under primary keys *)

Section JoinAsFilter.
Import model modelaux.
Context {Base File Question : Type}.
Implicit Types (db : DB Base) (v : catalog_version_row Base)
  (t : catalog_template_row) (c : catalog_row).

Lemma of_template_b_spec db catalog template v :
  of_template_b db catalog template v = true <->
  of_template db catalog template v.
Proof.
  unfold of_template_b, of_template. rewrite existsb_exists. split.
  - intros (t & Ht & H). rewrite !andb_true_iff in H.
    destruct H as [[Hid Hf] Hex].
    apply existsb_exists in Hex as (c & Hc & H).
    rewrite andb_true_iff in H. destruct H as [Hcid Hn].
    apply N.eqb_eq in Hid, Hcid. apply String.eqb_eq in Hf, Hn.
    exists t, c. repeat split; assumption.
  - intros (t & c & Ht & Hc & Hid & Hcid & Hn & Hf).
    exists t. split; [assumption|].
    rewrite !andb_true_iff. repeat split.
    + now apply N.eqb_eq.
    + now apply String.eqb_eq.
    + apply existsb_exists. exists c. split; [assumption|].
      rewrite andb_true_iff. split; [now apply N.eqb_eq|now apply String.eqb_eq].
Qed.

Lemma visible_b_spec environmentId v :
  visible_b environmentId v = true <-> visible environmentId v.
Proof.
  unfold visible_b, visible. now rewrite orb_true_iff, !String.eqb_eq.
Qed.

(** The rows of the product that hold the version row [v]. *)
Lemma from_tables_cons v vs ts cs :
  from_tables {| tbl_catalog_version := v :: vs;
                 tbl_catalog_template := ts; tbl_catalog := cs |}
  = (from_tables {| tbl_catalog_version := [v];
                    tbl_catalog_template := ts; tbl_catalog := cs |}
     ++ from_tables {| tbl_catalog_version := vs;
                       tbl_catalog_template := ts; tbl_catalog := cs |})%list.
Proof. unfold from_tables. cbn. now rewrite app_nil_r. Qed.

Lemma of_template_b_rows vs vs' ts cs catalog template v :
  of_template_b {| tbl_catalog_version := vs;
                   tbl_catalog_template := ts; tbl_catalog := cs |}
    catalog template v
  = of_template_b {| tbl_catalog_version := vs';
                     tbl_catalog_template := ts; tbl_catalog := cs |}
      catalog template v.
Proof. reflexivity. Qed.

Lemma select_one_row ts cs environmentId catalog template v :
  unique_key t_id ts -> unique_key c_id cs ->
  select_versions {| tbl_catalog_version := [v];
                     tbl_catalog_template := ts; tbl_catalog := cs |}
    environmentId catalog template
  = if visible_b environmentId v
       && of_template_b {| tbl_catalog_version := [v];
                           tbl_catalog_template := ts; tbl_catalog := cs |}
            catalog template v
    then [v] else [].
Proof.
  intros Ht Hc.
  set (db1 := {| tbl_catalog_version := [v];
                 tbl_catalog_template := ts; tbl_catalog := cs |}).
  assert (Hmem : forall v', In v' (select_versions db1 environmentId catalog
                                     template) <->
                            v' = v /\ visible environmentId v /\
                            of_template db1 catalog template v).
  { intros v'. rewrite in_select_versions. cbn. split.
    - intros ([<- | []] & Hof & Hvis). tauto.
    - intros (-> & Hvis & Hof). tauto. }
  assert (Hlen : (length (select_versions db1 environmentId catalog template)
                  <= 1)%nat).
  { unfold select_versions. rewrite length_map. apply length_le_1.
    - apply List.NoDup_filter, from_tables_NoDup; cbn.
      + repeat constructor. intros [].
      + exact (unique_key_rows _ _ Ht).
      + exact (unique_key_rows _ _ Hc).
    - intros [[v1 t1] c1] [[v2 t2] c2] H1 H2.
      apply filter_In in H1 as [H1 W1]. apply filter_In in H2 as [H2 W2].
      apply in_from_tables in H1 as (Hv1 & Ht1 & Hc1).
      apply in_from_tables in H2 as (Hv2 & Ht2 & Hc2).
      cbn in Hv1, Hv2, Ht1, Ht2, Hc1, Hc2.
      destruct Hv1 as [<- | []]. destruct Hv2 as [<- | []].
      apply where_template_spec in W1 as (_ & A1 & B1 & _).
      apply where_template_spec in W2 as (_ & A2 & B2 & _).
      assert (t1 = t2) as ->
        by (apply (unique_key_inj t_id ts); congruence).
      assert (c1 = c2) as ->
        by (apply (unique_key_inj c_id cs); congruence).
      reflexivity. }
  destruct (visible_b environmentId v && of_template_b db1 catalog template v)
    eqn:Hp.
  - apply andb_true_iff in Hp as [Hvis Hof].
    apply visible_b_spec in Hvis. apply of_template_b_spec in Hof.
    destruct (select_versions db1 environmentId catalog template)
      as [|v1 [|v2 rest]] eqn:Hsel.
    + exfalso. apply (proj2 (Hmem v)); auto.
    + f_equal. apply (Hmem v1). now left.
    + cbn in Hlen. lia.
  - apply no_in_nil. intros v' Hin. apply Hmem in Hin as (_ & Hvis & Hof).
    apply visible_b_spec in Hvis. apply of_template_b_spec in Hof.
    rewrite Hvis, Hof in Hp. discriminate.
Qed.

Lemma select_versions_filter db environmentId catalog template :
  unique_key t_id (tbl_catalog_template db) ->
  unique_key c_id (tbl_catalog db) ->
  select_versions db environmentId catalog template
  = List.filter (fun v => visible_b environmentId v
                          && of_template_b db catalog template v)
      (tbl_catalog_version db).
Proof.
  intros Ht Hc. destruct db as [vs ts cs]. cbn in Ht, Hc.
  cbn [tbl_catalog_version].
  induction vs as [|v vs IH].
  - reflexivity.
  - unfold select_versions.
    rewrite from_tables_cons, List.filter_app, List.map_app.
    fold (select_versions {| tbl_catalog_version := [v];
                             tbl_catalog_template := ts; tbl_catalog := cs |}
            environmentId catalog template).
    fold (select_versions {| tbl_catalog_version := vs;
                             tbl_catalog_template := ts; tbl_catalog := cs |}
            environmentId catalog template).
    rewrite select_one_row by assumption. rewrite IH. cbn [List.filter].
    rewrite (of_template_b_rows [v] (v :: vs)).
    destruct (visible_b environmentId v
              && of_template_b
                   {| tbl_catalog_version := v :: vs;
                      tbl_catalog_template := ts; tbl_catalog := cs |}
                   catalog template v);
      cbn; f_equal; apply filter_ext; intros v'; f_equal;
      apply of_template_b_rows.
Qed.

(** When the ids of [catalog_template] and of [catalog] are primary keys,
    the join lists every persisted row at most once: [LookupVersions]
    returns one Version for each row of [catalog_version] that is visible
    to the environment and belongs to the template, and nothing else. *)
Theorem LookupVersions_one_per_row (zero_Base : Base) db
    (environmentId catalog template : string) :
  unique_key t_id (tbl_catalog_template db) ->
  unique_key c_id (tbl_catalog db) ->
  LookupVersions (File:=File) (Question:=Question)
    zero_Base db environmentId catalog template
  = List.map version_of_row
      (List.filter (fun v => visible_b environmentId v
                             && of_template_b db catalog template v)
         (tbl_catalog_version db)).
Proof.
  intros Ht Hc. rewrite LookupVersions_rows.
  now rewrite select_versions_filter.
Qed.

End JoinAsFilter.

(** * Further properties of the bootstrap *)

(** ** Table names *)

Section TableNames.
Import gostrings cmdaux.

Lemma length_append (a b : string) :
  String.length (a ++ b) = (String.length a + String.length b)%nat.
Proof. induction a as [|c a IH]; simpl; [reflexivity|now rewrite IH]. Qed.

Lemma substring_whole (b : string) :
  String.substring 0 (String.length b) b = b.
Proof. induction b as [|c b IH]; simpl; [reflexivity|now rewrite IH]. Qed.

Lemma substring_append_r (a b : string) :
  String.substring (String.length a) (String.length b) (a ++ b) = b.
Proof.
  induction a as [|c a IH]; simpl; [apply substring_whole|exact IH].
Qed.

Lemma substring_append_l (a b : string) :
  String.substring 0 (String.length a) (a ++ b) = a.
Proof.
  induction a as [|c a IH]; simpl.
  - now destruct b.
  - now rewrite IH.
Qed.

Lemma TrimSuffix_append (a suffix : string) :
  TrimSuffix (a ++ suffix) suffix = a.
Proof.
  unfold TrimSuffix, HasSuffix. rewrite length_append.
  replace (String.length a + String.length suffix - String.length suffix)%nat
    with (String.length a) by lia.
  rewrite substring_append_r, String.eqb_refl, substring_append_l.
  replace (String.length suffix <=? String.length a + String.length suffix)%nat
    with true by (symmetry; apply Nat.leb_le; lia).
  reflexivity.
Qed.

(** Every table name that the handler gives is [catalog] itself or has
    the prefix [catalog_]. *)
Theorem table_names_start_with_catalog (defaultTableName : string) :
  DefaultTableNameHandler defaultTableName = "catalog" \/
  exists rest, DefaultTableNameHandler defaultTableName = "catalog_" ++ rest.
Proof.
  unfold DefaultTableNameHandler.
  destruct (String.eqb (TrimSuffix defaultTableName "_model") "catalog")
    eqn:E.
  - left. now apply String.eqb_eq in E.
  - right. eexists. reflexivity.
Qed.

(** The default name of a model struct, [<base>_model], becomes
    [catalog_<base>], and [catalog_model] becomes [catalog]: the suffix is
    dropped and the prefix is not doubled for the catalog table. *)
Theorem model_table_name (base : string) :
  DefaultTableNameHandler (base ++ "_model")
  = if String.eqb base "catalog" then "catalog" else "catalog_" ++ base.
Proof.
  unfold DefaultTableNameHandler. rewrite TrimSuffix_append.
  destruct (String.eqb base "catalog") eqn:E; [|reflexivity].
  now apply String.eqb_eq in E.
Qed.

End TableNames.

(** ** The parameters of the DSN *)

Section DSN.
Import gostrings cmdaux.

Lemma without_append (c : ascii) (a b : string) :
  without c (a ++ b) = without c a && without c b.
Proof.
  induction a as [|c' a IH]; simpl; [reflexivity|].
  now rewrite IH, andb_assoc.
Qed.

Lemma Split_not_nil (s : string) (sep : ascii) : Split s sep <> [].
Proof.
  destruct s as [|c s]; cbn; [discriminate|].
  destruct (Ascii.eqb c sep); [discriminate|].
  destruct (Split s sep); discriminate.
Qed.

Lemma Split_without (s : string) (sep : ascii) :
  without sep s = true -> Split s sep = [s].
Proof.
  induction s as [|c s IH]; simpl; [reflexivity|].
  intros H. apply andb_true_iff in H as [Hc Hs].
  apply negb_true_iff in Hc. rewrite Hc, (IH Hs). reflexivity.
Qed.

Lemma Split_append (a b : string) (sep : ascii) :
  without sep a = true ->
  Split (a ++ String sep b) sep = a :: Split b sep.
Proof.
  induction a as [|c a IH]; simpl.
  - intros _. now rewrite Ascii.eqb_refl.
  - intros H. apply andb_true_iff in H as [Hc Ha].
    apply negb_true_iff in Hc. rewrite Hc, (IH Ha). reflexivity.
Qed.

Lemma SplitN2_without (s : string) (sep : ascii) :
  without sep s = true -> SplitN2 s sep = [s].
Proof.
  induction s as [|c s IH]; simpl; [reflexivity|].
  intros H. apply andb_true_iff in H as [Hc Hs].
  apply negb_true_iff in Hc. rewrite Hc, (IH Hs). reflexivity.
Qed.

Lemma SplitN2_append (a b : string) (sep : ascii) :
  without sep a = true ->
  SplitN2 (a ++ String sep b) sep = [a; b].
Proof.
  induction a as [|c a IH]; simpl.
  - intros _. now rewrite Ascii.eqb_refl.
  - intros H. apply andb_true_iff in H as [Hc Ha].
    apply negb_true_iff in Hc. rewrite Hc, (IH Ha). reflexivity.
Qed.

Lemma Split_pieces_without (c sep : ascii) (s : string) :
  without c s = true ->
  List.Forall (fun piece => without c piece = true) (Split s sep).
Proof.
  induction s as [|c' s IH]; simpl.
  - intros _. repeat constructor.
  - intros H. apply andb_true_iff in H as [Hc Hs]. specialize (IH Hs).
    destruct (Ascii.eqb c' sep).
    + constructor; [reflexivity|assumption].
    + destruct (Split s sep) as [|piece pieces];
        [repeat constructor; cbn; now rewrite Hc|].
      inversion IH as [|? ? Hp Hps]; subst.
      constructor; [cbn; now rewrite Hc, Hp|assumption].
Qed.

Lemma add_param_without (m : gmap string string) (param : string) :
  without "="%char param = true -> add_param m param = m.
Proof. intros H. unfold add_param. now rewrite (SplitN2_without _ _ H). Qed.

Lemma add_param_setting (m : gmap string string) (kv : string * string) :
  without "="%char (fst kv) = true ->
  add_param m (param_string kv) = <[fst kv := snd kv]> m.
Proof.
  intros H. unfold add_param, param_string.
  change ("=" ++ snd kv) with (String "="%char (snd kv)).
  now rewrite (SplitN2_append _ _ _ H).
Qed.

(** A parameter string without any [=], the empty one above all, sets
    nothing: the parameters are [parseTime=true] alone. *)
Theorem params_without_equals_are_ignored (params : string) :
  without "="%char params = true ->
  paramsMap params = {[ "parseTime" := "true" ]}.
Proof.
  intros H. unfold paramsMap.
  pose proof (Split_pieces_without "="%char "&"%char params H) as Hall.
  induction Hall as [|piece pieces Hp _ IH]; cbn; [reflexivity|].
  now rewrite (add_param_without _ _ Hp).
Qed.

Lemma fold_add_param_settings (kvs : list (string * string))
    (m : gmap string string) :
  List.Forall (fun kv => without "="%char (fst kv) = true) kvs ->
  fold_left add_param (List.map param_string kvs) m
  = fold_left (fun m kv => <[fst kv := snd kv]> m) kvs m.
Proof.
  intros Hall. revert m.
  induction Hall as [|kv kvs Hk _ IH]; intros m; cbn; [reflexivity|].
  now rewrite (add_param_setting _ _ Hk), IH.
Qed.

Lemma Split_join_params (kvs : list (string * string)) :
  kvs <> [] ->
  List.Forall (fun kv => without "&"%char (fst kv) = true /\
                         without "&"%char (snd kv) = true) kvs ->
  Split (join_params kvs) "&"%char = List.map param_string kvs.
Proof.
  intros Hne Hall. induction Hall as [|kv kvs [Hk Hv] Hall IH];
    [congruence|].
  assert (Hp : without "&"%char (param_string kv) = true).
  { unfold param_string. rewrite !without_append, Hk, Hv. reflexivity. }
  destruct kvs as [|kv' kvs].
  - cbn [join_params List.map]. now apply Split_without.
  - change (join_params (kv :: kv' :: kvs))
      with (param_string kv ++ String "&"%char (join_params (kv' :: kvs))).
    rewrite (Split_append _ _ _ Hp), IH by discriminate. reflexivity.
Qed.

(** Round trip: for settings [key=value] joined with [&], where no key
    holds [=] or [&] and no value holds [&], the parameters are
    [parseTime=true] overwritten by the settings in their order; a later
    setting of a key wins, and [parseTime] can be set like any other. *)
Theorem paramsMap_of_settings (kvs : list (string * string)) :
  List.Forall (fun kv => without "="%char (fst kv) = true /\
                         without "&"%char (fst kv) = true /\
                         without "&"%char (snd kv) = true) kvs ->
  paramsMap (join_params kvs)
  = fold_left (fun m kv => <[fst kv := snd kv]> m) kvs
      {[ "parseTime" := "true" ]}.
Proof.
  intros Hall. unfold paramsMap. destruct kvs as [|kv kvs]; [reflexivity|].
  rewrite Split_join_params; [|discriminate|].
  - apply fold_add_param_settings.
    eapply List.Forall_impl; [|exact Hall]. cbn. tauto.
  - eapply List.Forall_impl; [|exact Hall]. cbn. tauto.
Qed.

(** Whatever the parameter string, [parseTime] is set in the result. *)
Theorem parseTime_always_set (user password address dbname params : string) :
  is_Some (Params (formatDSN_Config user password address dbname params)
             !! "parseTime").
Proof.
  cbn. unfold paramsMap.
  assert (Hgen : forall pieces (m : gmap string string),
             is_Some (m !! "parseTime") ->
             is_Some (fold_left add_param pieces m !! "parseTime")).
  { induction pieces as [|piece pieces IH]; intros m Hm; cbn; [exact Hm|].
    apply IH. unfold add_param.
    destruct (SplitN2 piece "="%char) as [|key [|value rest]];
      try exact Hm.
    rewrite lookup_insert_is_Some. destruct (decide (key = "parseTime"));
      [left; assumption|right; split; assumption]. }
  apply Hgen. rewrite lookup_singleton_eq. eauto.
Qed.

End DSN.

(** A parameter string as one would pass it: two settings, one of them of
    [parseTime], and a piece without [=] that is dropped. *)
Example paramsMap_example :
  cmdaux.paramsMap "charset=utf8&loc&parseTime=false&a=b=c"
  = <["a" := "b=c"]> (<["parseTime" := "false"]> (<["charset" := "utf8"]>
      {[ "parseTime" := "true" ]})).
Proof. reflexivity. Qed.

(** ** Flags, configuration and start *)

Section FlagsAndStart.
Import cmd cmdaux.

Lemma set_flag_unbound (g : Globals) (f : string * flag_value) :
  ~ In (fst f) bound_flags -> set_flag g f = g.
Proof.
  destruct f as [name value]. cbn [fst]. intros Hnot.
  assert (Hne : forall b, In b bound_flags -> String.eqb name b = false).
  { intros b Hb. apply String.eqb_neq. intros ->. exact (Hnot Hb). }
  unfold set_flag.
  rewrite ?(Hne "port"), ?(Hne "p"), ?(Hne "cache"), ?(Hne "config"),
    ?(Hne "validate"), ?(Hne "sqlite"), ?(Hne "migrate-db")
    by (cbn; tauto).
  now destruct value.
Qed.

(** Flags that are not bound to a package variable, among them
    [refresh-interval] and the [mysql-...] flags, change none of the
    package variables: they all keep the defaults that [init] stored. *)
Theorem unbound_flags_change_nothing (args : list (string * flag_value)) :
  List.Forall (fun f => ~ In (fst f) bound_flags) args ->
  parse_flags args = init zero_Globals.
Proof.
  unfold parse_flags. generalize (init zero_Globals).
  induction 1 as [|f args Hf _ IH]; cbn; [reflexivity|].
  now rewrite (set_flag_unbound _ _ Hf).
Qed.

Context {CatalogConfig : Type}.
Implicit Types (env : Env CatalogConfig) (g : Globals).

(** An error from [readConfig] comes with the nil mapping and is the error
    of reading the file or of decoding it; nothing else makes it fail. *)
Theorem readConfig_error_origin env (configFile : string)
    (catalogs : gomap CatalogConfig) (err : error) :
  readConfig env configFile = (catalogs, Some err) ->
  catalogs = None /\
  (ioutil_ReadFile env configFile = inl err \/
   exists configContents,
     ioutil_ReadFile env configFile = inr configContents /\
     json_Unmarshal env configContents = inl err).
Proof.
  unfold readConfig.
  destruct (ioutil_ReadFile env configFile) as [e | configContents].
  - intros [= <- <-]. split; [reflexivity|now left].
  - destruct (json_Unmarshal env configContents) as [e | config] eqn:Hjson.
    + intros [= <- <-]. split; [reflexivity|]. right. eauto.
    + discriminate.
Qed.

(** The main goroutine of [run] ends in [log.Fatal] for three reasons
    only: the configuration cannot be read or decoded; or the database
    cannot be opened; or, outside validate-only mode,
    [http.ListenAndServe] returns. The error is that of the failing
    step. *)
Theorem main_fatal_iff env (http_ListenAndServe : Z -> option error) g
    (err : error) :
  main_fatal (run_main env http_ListenAndServe g) = Some err <->
  (exists catalogs, readConfig env (configFile g) = (catalogs, Some err)) \/
  (exists config,
      readConfig env (configFile g) = (config, None) /\
      gorm_Open env (if sqlite g then "sqlite3" else "mysql")
        (if sqlite g then "local.db" else mysql_dsn env) = Some err) \/
  (exists config,
      readConfig env (configFile g) = (config, None) /\
      gorm_Open env (if sqlite g then "sqlite3" else "mysql")
        (if sqlite g then "local.db" else mysql_dsn env) = None /\
      validateOnly g = false /\
      http_ListenAndServe (port g) = Some err).
Proof.
  unfold run_main, run, run_with_config.
  destruct (readConfig env (configFile g)) as [config [e|]].
  - cbn. split.
    + intros [= ->]. left. eauto.
    + intros [(catalogs & [= _ ->])
             | [(config' & [= ] & _) | (config' & [= ] & _)]].
      reflexivity.
  - destruct (gorm_Open env _ _) as [e|] eqn:Hopen.
    + cbn. split.
      * intros [= ->]. right. left. eauto.
      * intros [(catalogs & [= ])
               | [(config' & _ & [= ->]) | (config' & _ & [= ] & _)]].
        reflexivity.
    + cbn. destruct (validateOnly g) eqn:Hv.
      * cbn. split; [discriminate|].
        intros [(catalogs & [= ])
               | [(config' & _ & [= ]) | (config' & _ & _ & [= ] & _)]].
      * destruct (http_ListenAndServe (port g)) as [e|] eqn:Hl; cbn; split.
        -- intros [= ->]. right. right. exists config. auto.
        -- intros [(catalogs & [= ])
                  | [(config' & _ & [= ])
                    | (config' & _ & _ & _ & [= ->])]].
           reflexivity.
        -- discriminate.
        -- intros [(catalogs & [= ])
                  | [(config' & _ & [= ]) | (config' & _ & _ & _ & [= ])]].
Qed.

(** With the sqlite flag the schema is migrated whether or not migration
    was asked for, and the database is the local file; without it the
    database is MySQL and migration follows its flag. *)
Theorem sqlite_forces_migration env g (s : started CatalogConfig) :
  run env g = running s ->
  started_migrate s = (sqlite g || migrateDb g) /\
  started_dialect s = (if sqlite g then "sqlite3" else "mysql").
Proof.
  unfold run, run_with_config.
  destruct (readConfig env (configFile g)) as [config [e|]]; [discriminate|].
  destruct (gorm_Open env _ _); [discriminate|].
  intros [= <-]. cbn. now destruct (sqlite g).
Qed.

Context {M : Type} `{Manager M}.

(** [refresh] gets to its loop only in normal mode and only after both
    calls succeeded, one after the other; the manager it loops with is the
    one the initial pass left, and the channel is the ticker of the
    interval. *)
Theorem refresh_reaches_loop (m m' : M) (refreshInterval : Z)
    (validateOnly : bool) (ch : time.channel) :
  refresh m refreshInterval validateOnly = ranging m' ch ->
  validateOnly = false /\
  ch = time.Tick (time.seconds refreshInterval) /\
  exists m1, CreateConfigCatalogs m = (m1, None) /\
             RefreshAll m1 = (m', None).
Proof.
  unfold refresh.
  destruct (CreateConfigCatalogs m) as [m1 [e|]]; [discriminate|].
  destruct (RefreshAll m1) as [m2 [e|]] eqn:Hr; [discriminate|].
  destruct validateOnly; [discriminate|].
  intros [= <- <-]. repeat split. eauto.
Qed.

(** In validate-only mode nothing is served and the loop is never
    entered: [run] leaves the main goroutine blocked, and [refresh] ends
    the process: with status 0 when both calls of the initial pass
    succeeded, in [log.Fatalf] with the error of [CreateConfigCatalogs]
    when that call failed, and in [log.Fatalf] with the error of
    [RefreshAll] when that call failed. *)
Theorem validate_only_never_serves env g (s : started CatalogConfig) (m : M) :
  run env g = running s -> validateOnly g = true ->
  started_serve s = None /\
  (forall m1 m2,
      CreateConfigCatalogs m = (m1, None) -> RefreshAll m1 = (m2, None) ->
      refresh m (started_refreshInterval s) (started_validateOnly s)
      = os_Exit 0) /\
  (forall m1 err,
      CreateConfigCatalogs m = (m1, Some err) ->
      refresh m (started_refreshInterval s) (started_validateOnly s)
      = log_Fatalf "Failed to create catalogs from config file: %v" err) /\
  (forall m1 m2 err,
      CreateConfigCatalogs m = (m1, None) -> RefreshAll m1 = (m2, Some err) ->
      refresh m (started_refreshInterval s) (started_validateOnly s)
      = log_Fatalf "Failed to do initial refresh of catalogs: %v" err).
Proof.
  intros Hrun Hv.
  assert (Hs : started_serve s = None /\ started_validateOnly s = true).
  { revert Hrun. unfold run, run_with_config.
    destruct (readConfig env (configFile g)) as [config [e|]];
      [discriminate|].
    destruct (gorm_Open env _ _); [discriminate|].
    intros [= <-]. cbn. rewrite Hv. split; reflexivity. }
  destruct Hs as [Hserve Hvalidate]. split; [assumption|].
  rewrite Hvalidate. unfold refresh. repeat split.
  - intros m1 m2 Hc Hr. now rewrite Hc, Hr.
  - intros m1 err Hc. now rewrite Hc.
  - intros m1 m2 err Hc Hr. now rewrite Hc, Hr.
Qed.

End FlagsAndStart.

(** ** The interval and the ticker *)

Section Ticker.
Import cmd cmdaux.

Lemma wrap64_in_range (z : Z) :
  - 2 ^ 63 <= z < 2 ^ 63 -> time.wrap64 z = z.
Proof.
  intros Hz. unfold time.wrap64.
  rewrite Z.mod_small; lia.
Qed.

Lemma wrap64_above (z : Z) :
  2 ^ 63 <= z < 2 ^ 64 -> time.wrap64 z = z - 2 ^ 64.
Proof.
  intros Hz. unfold time.wrap64.
  replace (z + 2 ^ 63) with ((z - 2 ^ 63) + 1 * 2 ^ 64) by lia.
  rewrite Z.mod_add by lia. rewrite Z.mod_small; lia.
Qed.

(** An interval from 1 to 9223372036 seconds gives a ticker of exactly
    that many seconds. *)
Theorem positive_interval_ticks (refreshInterval : Z) :
  0 < refreshInterval <= 9223372036 ->
  time.Tick (time.seconds refreshInterval)
  = Some (refreshInterval * 1000000000).
Proof.
  intros Hn. unfold time.seconds, time.Second.
  rewrite (wrap64_in_range refreshInterval) by lia.
  rewrite wrap64_in_range by lia.
  unfold time.Tick.
  destruct (Z.leb_spec (refreshInterval * 1000000000) 0); [lia|reflexivity].
Qed.

(** An interval of 0 or below gives the nil channel: the loop never
    runs. *)
Theorem nonpositive_interval_never_ticks (refreshInterval : Z) :
  - 9223372036 <= refreshInterval <= 0 ->
  time.Tick (time.seconds refreshInterval) = None.
Proof.
  intros Hn. unfold time.seconds, time.Second.
  rewrite (wrap64_in_range refreshInterval) by lia.
  rewrite wrap64_in_range by lia.
  unfold time.Tick.
  destruct (Z.leb_spec (refreshInterval * 1000000000) 0); [reflexivity|lia].
Qed.

(** An interval just too large for a [Duration] wraps to a negative
    number of nanoseconds, and the channel is nil as well. *)
Theorem overflowing_interval_never_ticks (refreshInterval : Z) :
  9223372037 <= refreshInterval <= 18446744073 ->
  time.Tick (time.seconds refreshInterval) = None.
Proof.
  intros Hn. unfold time.seconds, time.Second.
  rewrite (wrap64_in_range refreshInterval) by lia.
  rewrite wrap64_above by lia.
  unfold time.Tick.
  destruct (Z.leb_spec (refreshInterval * 1000000000 - 2 ^ 64) 0);
    [reflexivity|lia].
Qed.

Lemma loop_body_well_numbered (p : goroutines) :
  well_numbered p -> well_numbered (loop_body p).
Proof.
  intros [Hnd Hlt]. split; cbn.
  - constructor; [|assumption].
    intros Hin. rewrite List.Forall_forall in Hlt.
    specialize (Hlt _ Hin). lia.
  - constructor; [lia|].
    eapply List.Forall_impl; [|exact Hlt]. cbn. intros; lia.
Qed.

Lemma filter_remove_one (g : nat) (l : list nat) :
  List.NoDup l -> In g l ->
  S (length (List.filter (fun g' => negb (Nat.eqb g g')) l)) = length l.
Proof.
  induction l as [|a l IH]; cbn; [tauto|].
  intros Hnd Hin. apply List.NoDup_cons_iff in Hnd as [Hnotin Hnd].
  destruct (Nat.eqb_spec g a) as [-> | Hne]; cbn.
  - f_equal. f_equal. clear IH Hin Hnd.
    induction l as [|b l IH]; cbn; [reflexivity|].
    destruct (Nat.eqb_spec a b) as [-> | Hab]; cbn.
    + exfalso. apply Hnotin. now left.
    + f_equal. apply IH. intros H. apply Hnotin. now right.
  - f_equal. apply IH; [assumption|]. destruct Hin; [congruence|assumption].
Qed.

(** Accounting of the loop. From a well-numbered state, after anything
    that can happen: the state is well numbered again; one goroutine was
    started per tick received, none was skipped or put off; and what is in
    flight is what was in flight, plus the ticks, minus the returns. *)
Theorem loop_accounting (ch : time.channel) (hs : list happening)
    (p p' : goroutines) :
  well_numbered p -> loop_run ch hs p = Some p' ->
  well_numbered p' /\
  started_so_far p'
  = (started_so_far p + length (List.filter is_tick hs))%nat /\
  (length (in_flight p')
     + length (List.filter (fun h => negb (is_tick h)) hs)
   = length (in_flight p) + length (List.filter is_tick hs))%nat.
Proof.
  revert p. induction hs as [|h hs IH]; intros p Hwf; cbn.
  - intros [= <-]. repeat split; try apply Hwf; lia.
  - destruct h as [|g]; cbn.
    + destruct ch as [d|]; [|discriminate]. intros Hrun.
      apply IH in Hrun as (Hwf' & Hst & Hfl);
        [|now apply loop_body_well_numbered].
      cbn in Hst, Hfl. repeat split; try apply Hwf'; lia.
    + destruct (existsb (Nat.eqb g) (in_flight p)) eqn:Hex; [|discriminate].
      intros Hrun.
      apply existsb_exists in Hex as (g' & Hin & Heq).
      apply Nat.eqb_eq in Heq. subst g'.
      destruct Hwf as [Hnd Hlt].
      apply IH in Hrun as (Hwf' & Hst & Hfl).
      * cbn in Hst, Hfl.
        pose proof (filter_remove_one g (in_flight p) Hnd Hin).
        repeat split; try apply Hwf'; lia.
      * split; cbn.
        -- now apply List.NoDup_filter.
        -- apply List.Forall_forall. intros x Hx.
           apply filter_In in Hx as [Hx _].
           rewrite List.Forall_forall in Hlt. now apply Hlt.
Qed.

(** On a live ticker, any number of ticks in a row is taken, and each adds
    a [RefreshAll] to those in flight. *)
Theorem ticks_in_a_row_pile_up (d : Z) (k : nat) (p : goroutines) :
  exists p',
    loop_run (Some d) (repeat tick k) p = Some p' /\
    length (in_flight p') = (length (in_flight p) + k)%nat.
Proof.
  revert p. induction k as [|k IH]; intros p; cbn.
  - exists p. split; [reflexivity|lia].
  - destruct (IH (loop_body p)) as (p' & Hrun & Hlen).
    exists p'. split; [assumption|]. cbn in Hlen. lia.
Qed.

End Ticker.

(** * The further properties on the concrete instances *)

Lemma sample_row_of_template (id : N) (environment_id : string)
    (revision : Z) (version : string) :
  model.of_template sample.db_scoped "mycatalog" "mytemplate"
    (sample.version_row id environment_id 1 revision version).
Proof.
  exists {| model.t_id := 1; model.t_catalog_id := 1;
            model.t_folder_name := "mytemplate" |},
         {| model.c_id := 1; model.c_name := "mycatalog" |}.
  cbn. tauto.
Qed.

Lemma LookupVersionModel_returns_matching_row_witness :
  exists v',
    In v' (model.tbl_catalog_version sample.db_scoped) /\
    model.of_template sample.db_scoped "mycatalog" "mytemplate" v' /\
    model.visible "env-A" v' /\ model.v_revision v' = 2 /\
    model.LookupVersionModel (File:=unit) (Question:=unit)
      0%N sample.db_scoped "env-A" "mycatalog" "mytemplate" 2
    = Some (model.scan_row (model.zero_VersionModel 0%N) v').
Proof.
  apply (LookupVersionModel_returns_matching_row 0%N sample.db_scoped
           "env-A" "mycatalog" "mytemplate" 2
           (sample.version_row 2 "global" 1 2 "0.2.0")).
  - cbn. tauto.
  - apply sample_row_of_template.
  - right. reflexivity.
  - reflexivity.
Defined.

Lemma LookupVersionModel_finds_persisted_row_witness :
  model.LookupVersionModel (File:=unit) (Question:=unit)
    0%N sample.db_scoped "env-A" "mycatalog" "mytemplate" 1
  = Some (model.scan_row (model.zero_VersionModel 0%N)
            (sample.version_row 1 "env-A" 1 1 "0.1.0")).
Proof.
  apply (LookupVersionModel_finds_persisted_row 0%N sample.db_scoped
           "env-A" "mycatalog" "mytemplate"
           (sample.version_row 1 "env-A" 1 1 "0.1.0")).
  - unfold model.unique_key. cbn. repeat constructor. cbn. tauto.
  - unfold model.unique_key. cbn. repeat constructor. cbn. tauto.
  - unfold model.unique_key. cbn.
    repeat constructor; cbn; intuition congruence.
  - cbn. tauto.
  - apply sample_row_of_template.
  - left. reflexivity.
Defined.

Lemma found_version_is_listed_witness :
  exists vm : model.VersionModel N unit unit,
    model.LookupVersionModel 0%N sample.db_scoped
      "env-A" "mycatalog" "mytemplate" 1 = Some vm /\
    In (model.VersionModel_Version vm)
      (model.LookupVersions 0%N sample.db_scoped
         "env-A" "mycatalog" "mytemplate").
Proof.
  apply (found_version_is_listed 0%N sample.db_scoped
           "env-A" "mycatalog" "mytemplate" 1
           (sample.version_row 1 "env-A" 1 1 "0.1.0")).
  - cbn. tauto.
  - apply sample_row_of_template.
  - left. reflexivity.
  - reflexivity.
Defined.

Lemma LookupVersions_one_per_row_witness :
  model.LookupVersions (File:=unit) (Question:=unit)
    0%N sample.db_scoped "env-B" "mycatalog" "mytemplate"
  = List.map model.version_of_row
      [ sample.version_row 2 "global" 1 2 "0.2.0";
        sample.version_row 3 "env-B" 1 3 "0.3.0" ].
Proof.
  apply (LookupVersions_one_per_row 0%N sample.db_scoped
           "env-B" "mycatalog" "mytemplate").
  - unfold model.unique_key. cbn. repeat constructor. cbn. tauto.
  - unfold model.unique_key. cbn. repeat constructor. cbn. tauto.
Defined.

Lemma params_without_equals_are_ignored_witness :
  cmdaux.paramsMap EmptyString = {[ "parseTime" := "true" ]}.
Proof.
  apply (params_without_equals_are_ignored EmptyString). reflexivity.
Defined.

Lemma paramsMap_of_settings_witness :
  cmdaux.paramsMap "charset=utf8&parseTime=false"
  = <["parseTime" := "false"]> (<["charset" := "utf8"]>
      {[ "parseTime" := "true" ]}).
Proof.
  apply (paramsMap_of_settings
           [("charset", "utf8"); ("parseTime", "false")]).
  repeat constructor.
Defined.

Lemma unbound_flags_change_nothing_witness :
  cmd.parse_flags [("refresh-interval", cmd.IntValue 60);
                   ("mysql-user", cmd.StringValue "cattle")]
  = cmd.init cmd.zero_Globals.
Proof.
  apply unbound_flags_change_nothing.
  repeat constructor; cbn; intuition discriminate.
Defined.

Lemma readConfig_error_origin_witness :
  @None (gmap string unit) = None /\
  (cmd.ioutil_ReadFile sample.env_bad_json "./repo.json"
   = inl "unexpected end of JSON input" \/
   exists configContents,
     cmd.ioutil_ReadFile sample.env_bad_json "./repo.json"
     = inr configContents /\
     cmd.json_Unmarshal sample.env_bad_json configContents
     = inl "unexpected end of JSON input").
Proof.
  apply (readConfig_error_origin sample.env_bad_json "./repo.json").
  reflexivity.
Defined.

Lemma refresh_reaches_loop_witness :
  false = false /\
  Some 60000000000 = time.Tick (time.seconds 60) /\
  exists m1,
    cmd.CreateConfigCatalogs {| sample.fails := false; sample.refreshed := 0 |}
    = (m1, None) /\
    cmd.RefreshAll m1
    = ({| sample.fails := false; sample.refreshed := 1 |}, None).
Proof.
  apply (refresh_reaches_loop
           {| sample.fails := false; sample.refreshed := 0 |}
           {| sample.fails := false; sample.refreshed := 1 |} 60 false).
  reflexivity.
Defined.

Lemma validate_only_never_serves_witness :
  cmd.refresh {| sample.fails := false; sample.refreshed := 0 |} 0 true
  = cmd.os_Exit 0.
Proof.
  apply (proj1 (proj2 (validate_only_never_serves sample.env_no_catalogs_key
                         (cmd.parse_flags [("validate", cmd.BoolValue true)])
                         _ {| sample.fails := false; sample.refreshed := 0 |}
                         eq_refl eq_refl))
           {| sample.fails := false; sample.refreshed := 0 |}
           {| sample.fails := false; sample.refreshed := 1 |});
    reflexivity.
Defined.

(** A port that cannot be listened on is fatal although the configuration
    was read and the database opened. *)
Example listen_failure_is_fatal :
  cmdaux.main_fatal
    (cmdaux.run_main sample.env_no_catalogs_key
       (fun port => if port <=? 65535 then None
                    else Some "listen tcp: address 70000: invalid port")
       (cmd.parse_flags [("port", cmd.IntValue 70000)]))
  = Some "listen tcp: address 70000: invalid port".
Proof. reflexivity. Qed.

Lemma positive_interval_ticks_witness :
  time.Tick (time.seconds 60) = Some (60 * 1000000000).
Proof. apply positive_interval_ticks. lia. Defined.

Lemma nonpositive_interval_never_ticks_witness :
  time.Tick (time.seconds (-5)) = None.
Proof. apply nonpositive_interval_never_ticks. lia. Defined.

Lemma overflowing_interval_never_ticks_witness :
  time.Tick (time.seconds 9223372037) = None.
Proof. apply overflowing_interval_never_ticks. lia. Defined.

Lemma loop_accounting_witness :
  cmdaux.well_numbered
    {| cmd.started_so_far := 3; cmd.in_flight := [2%nat; 0%nat] |} /\
  3%nat = (0 + 3)%nat /\
  (2 + 1 = 0 + 3)%nat.
Proof.
  apply (loop_accounting (Some 60000000000)
           [cmd.tick; cmd.tick; cmd.returns 1; cmd.tick]
           cmd.no_goroutines).
  - split; constructor.
  - reflexivity.
Defined.
